(** * Fleet maintenance prediction: the two-stage decision pipeline

    A shallow embedding of [backend/app/predictor.py] (module-level artifact
    loading and [predict_machine_failure]) and of the [Predictor] class of
    [src/predict.py], with the properties of the cascaded, threshold-gated
    decision policy.

    Numbers.  Python floats are modelled by rationals ([Q]): comparisons are
    the exact ones and [round(x, 3)] is rounding to the nearest multiple of
    1/1000, ties to the even multiple, as the Python documentation of
    [round] states it.  The only non-number a cell of the feature frame can
    hold here is pandas' missing marker, which has a constructor of its own. *)

From Stdlib Require Import QArith ZArith Lia.
From stdpp Require Import gmap strings list.

Local Open Scope string_scope.
Local Open Scope Z_scope.
Local Open Scope list_scope.

(** ** Numbers *)

Module Num.

(** [x < y] on floats, as a boolean. *)
Definition ltb (x y : Q) : bool := negb (Qle_bool y x).

(** [x >= y] on floats, as a boolean. *)
Definition geb (x y : Q) : bool := Qle_bool y x.

(** Nearest integer, ties to even. *)
Definition round_half_even (x : Q) : Z :=
  let n := Qnum x in
  let d := Zpos (Qden x) in
  let fl := n / d in
  match (2 * (n mod d)) ?= d with
  | Lt => fl
  | Gt => fl + 1
  | Eq => if Z.even fl then fl else fl + 1
  end.

(** [round(x, 3)]. *)
Definition round3 (x : Q) : Q :=
  Qmake (round_half_even (x * (1000 # 1))%Q) 1000.

End Num.

(** ** Data model *)

(** A cell of the one-row feature frame: what [MachineInput.dict()] can hold
    (floats, booleans, strings) and the marker pandas puts where [reindex]
    finds no column. *)
Inductive value : Type :=
  | VFloat (x : Q)
  | VBool (b : bool)
  | VStr (s : string)
  | NaN.

(** A one-row [DataFrame]: its columns in order, each with the row's cell. *)
Definition DataFrame : Type := list (string * value).

(** [X.values] of a one-row frame. *)
Definition values (X : DataFrame) : list value := X.*2.

(** A two-dimensional array of probabilities, as [predict_proba] returns. *)
Definition matrix : Type := list (list Q).

(** An insertion-ordered [dict] with string keys. *)
Definition dict (V : Type) : Type := list (string * V).

Inductive exn : Type :=
  | KeyError (key : string)
  | IndexError
  | TypeError
  | ValueError (msg : string)
  | AttributeError (msg : string)
  | ModelError (msg : string).

(** The result of running Python code: a value or a raised exception. *)
Inductive outcome (A : Type) : Type :=
  | Ret (a : A)
  | Raise (e : exn).
Arguments Ret {A} a.
Arguments Raise {A} e.

#[export] Instance outcome_ret : MRet outcome := @Ret.
#[export] Instance outcome_bind : MBind outcome := fun A B f m =>
  match m with
  | Ret a => f a
  | Raise e => Raise e
  end.

(** [d[key]] on a dict that is only read. *)
Definition getitem {V} (d : gmap string V) (key : string) : outcome V :=
  match d !! key with
  | Some v => Ret v
  | None => Raise (KeyError key)
  end.

(** [a[r, c]] on a two-dimensional array. *)
Definition getitem2 (a : matrix) (r c : nat) : outcome Q :=
  match a !! r ≫= (.!! c) with
  | Some x => Ret x
  | None => Raise IndexError
  end.

(** [l[i]] on a list, [i] not negative. *)
Definition getindex {A} (l : list A) (i : nat) : outcome A :=
  match l !! i with
  | Some x => Ret x
  | None => Raise IndexError
  end.

(** [d[key] = v] on an insertion-ordered dict: an existing key keeps its
    place, a new key goes last. *)
Fixpoint dict_set {V} (key : string) (v : V) (d : dict V) : dict V :=
  match d with
  | [] => [(key, v)]
  | (k, w) :: d' =>
      if decide (key = k) then (key, v) :: d' else (k, w) :: dict_set key v d'
  end.

(** The keys of a dict, in order. *)
Definition keys {V} (d : dict V) : list string := d.*1.

(** [X.reindex(columns=...)] on the one-row frame built from [input_data]:
    one cell per requested column, the record's value where it has that
    field and [NaN] where it has not. *)
Definition reindex (input_data : gmap string value) (columns : list string)
  : DataFrame :=
  (λ c, (c, default NaN (input_data !! c))) <$> columns.

Record PredictionResult : Type := mkResult {
  failure : Z;
  failure_probability : Q;
  failure_types : option (dict Q)
}.

(** ** Module state of [predictor.py] *)

(** The module-level names bound when [predictor.py] is imported. *)
Record Globals : Type := mkGlobals {
  stage1_model : DataFrame → outcome matrix;
  STAGE1_THRESHOLD : option Q;
  STAGE1_FEATURES : list string;
  stage2_model : list value → outcome (list matrix);
  FAILURE_THRESHOLDS : gmap string Q;
  FAILURE_COLS : list string
}.

(** The unpickled gate bundle, a dict whose keys may be absent. *)
Record Stage1Dict : Type := mkStage1Dict {
  sd_model : option (DataFrame → outcome matrix);
  sd_threshold : option Q;
  sd_features : option (list string)
}.

(** The unpickled shared configuration, a dict whose keys may be absent. *)
Record Config : Type := mkConfig {
  cfg_stage1_threshold : option Q;
  cfg_failure_thresholds : option (gmap string Q);
  cfg_failure_cols : option (list string)
}.

(** [d[key]] on an unpickled bundle. *)
Definition field {A} (key : string) (o : option A) : outcome A :=
  match o with
  | Some a => Ret a
  | None => Raise (KeyError key)
  end.

(** The module body of [predictor.py], lines 12 to 18, run on the three
    unpickled artifacts. *)
Definition load_module (stage1_dict : Stage1Dict)
    (stage2 : list value → outcome (list matrix)) (config : Config)
  : outcome Globals :=
  model ← field "model" (sd_model stage1_dict);
  let threshold :=
    match sd_threshold stage1_dict with
    | Some t => Some t
    | None => cfg_stage1_threshold config
    end in
  features ← field "features" (sd_features stage1_dict);
  thresholds ← field "failure_thresholds" (cfg_failure_thresholds config);
  cols ← field "failure_cols" (cfg_failure_cols config);
  mret (mkGlobals model threshold features stage2 thresholds cols).

(** A classifier invocation, recorded for call counting. *)
Inductive event : Type :=
  | Stage1Call (X : DataFrame)
  | Stage2Call (X_array : list value).

(** The shared store an inference call runs in: the module's globals and
    the record of classifier invocations so far. *)
Record Store : Type := mkStore {
  globals : Globals;
  calls : list event
}.

(** Code that reads and writes the store and may raise. *)
Definition M (A : Type) : Type := Store → outcome A * Store.

#[export] Instance M_ret : MRet M := λ A a s, (Ret a, s).
#[export] Instance M_bind : MBind M := λ A B f m s,
  match m s with
  | (Ret a, s') => f a s'
  | (Raise e, s') => (Raise e, s')
  end.

(** Read a module-level name. *)
Definition read {A} (name : Globals → A) : M A := λ s, (Ret (name (globals s)), s).

(** Run pure code inside [M]. *)
Definition lift {A} (o : outcome A) : M A := λ s, (o, s).

Definition record_call (e : event) : M () :=
  λ s, (Ret (), mkStore (globals s) (calls s ++ [e])).

(** [stage1_model.predict_proba(X)]. *)
Definition call_stage1 (X : DataFrame) : M matrix :=
  model ← read stage1_model;
  record_call (Stage1Call X);;
  lift (model X).

(** [stage2_model.predict_proba(X_array)]. *)
Definition call_stage2 (X_array : list value) : M (list matrix) :=
  model ← read stage2_model;
  record_call (Stage2Call X_array);;
  lift (model X_array).

(** [p < threshold]; a threshold that is [None] cannot be compared. *)
Definition lt_threshold (p : Q) (threshold : option Q) : outcome bool :=
  match threshold with
  | Some t => Ret (Num.ltb p t)
  | None => Raise TypeError
  end.

(** ** [predict_machine_failure] *)

(** The loop of lines 46 to 50 from index [i] on; [acc] is
    [(failure_types, detected)]. *)
Fixpoint mode_loop (probs : list matrix) (i : nat) (cols : list string)
    (acc : dict Q * bool) : M (dict Q * bool) :=
  match cols with
  | [] => mret acc
  | col :: rest =>
      channel ← lift (getindex probs i);
      prob ← lift (getitem2 channel 0 1);
      thresholds ← read FAILURE_THRESHOLDS;
      t ← lift (getitem thresholds col);
      if Num.geb prob t
      then mode_loop probs (S i) rest (dict_set col (Num.round3 prob) acc.1, true)
      else mode_loop probs (S i) rest acc
  end.

(** Lines 21 to 59.  The frame [pd.DataFrame([input_data])] is the record
    itself, read by column label; line 26 turns the labels into strings,
    which they already are here. *)
Definition predict_machine_failure (input_data : gmap string value)
  : M PredictionResult :=
  features ← read STAGE1_FEATURES;
  let X := reindex input_data features in
  proba ← call_stage1 X;
  p_fail ← lift (getitem2 proba 0 1);
  threshold ← read STAGE1_THRESHOLD;
  below ← lift (lt_threshold p_fail threshold);
  if below : bool then
    mret {| failure := 0;
            failure_probability := Num.round3 p_fail;
            failure_types := None |}
  else
    let X_array := values X in
    probs ← call_stage2 X_array;
    cols ← read FAILURE_COLS;
    '(failure_types, detected) ← mode_loop probs 0 cols ([], false);
    let failure_types :=
      if detected : bool then failure_types
      else dict_set "RNF" (Num.round3 p_fail) failure_types in
    mret {| failure := 1;
            failure_probability := Num.round3 p_fail;
            failure_types := Some failure_types |}.

(** ** The [Predictor] class of [src/predict.py] *)

Module PredictPy.

(** A fitted estimator as [Predictor] uses it: [predict] always exists,
    [predict_proba] only on some estimators ([hasattr]). *)
Record Estimator : Type := mkEstimator {
  est_predict : matrix → outcome (list Z);
  est_predict_proba : option (matrix → outcome matrix)
}.

Record Predictor : Type := mkPredictor {
  model : option Estimator;
  model_path : option string
}.

(** A line written by [print] in an [except] branch: [ErrorLine text e] is
    [f"{text}{e}"]. *)
Inductive printed : Type :=
  | ErrorLine (text : string) (e : exn).

(** [Predictor.predict]: the outcome and what was printed. *)
Definition predict (self : Predictor) (X : matrix)
  : outcome (list Z) * list printed :=
  match model self with
  | None => (Raise (ValueError "No model loaded. Load or train a model first."), [])
  | Some m =>
      match est_predict m X with
      | Ret predictions => (Ret predictions, [])
      | Raise e => (Raise e, [ErrorLine "Error making predictions: " e])
      end
  end.

(** [Predictor.predict_proba]: the outcome and what was printed. *)
Definition predict_proba (self : Predictor) (X : matrix)
  : outcome matrix * list printed :=
  match model self with
  | None => (Raise (ValueError "No model loaded. Load or train a model first."), [])
  | Some m =>
      match est_predict_proba m with
      | None =>
          (Raise (AttributeError "Model does not support probability predictions."), [])
      | Some proba =>
          match proba X with
          | Ret probabilities => (Ret probabilities, [])
          | Raise e =>
              (Raise e, [ErrorLine "Error making probability predictions: " e])
          end
      end
  end.

End PredictPy.

(** ** Quantities the properties speak about *)

(** The Stage-1 probability [p_fail] the call computes for [input_data]. *)
Definition gate_probability (g : Globals) (input_data : gmap string value)
  : outcome Q :=
  proba ← stage1_model g (reindex input_data (STAGE1_FEATURES g));
  getitem2 proba 0 1.

(** What the Stage-2 classifier answers for [input_data]. *)
Definition mode_probabilities (g : Globals) (input_data : gmap string value)
  : outcome (list matrix) :=
  stage2_model g (values (reindex input_data (STAGE1_FEATURES g))).

(** [probs[i][0, 1]], the probability of mode [i], where it exists. *)
Definition mode_probability (probs : list matrix) (i : nat) : option Q :=
  channel ← probs !! i; row ← channel !! 0%nat; row !! 1%nat.

(** The value stored under [key], if any. *)
Fixpoint dict_get {V} (key : string) (d : dict V) : option V :=
  match d with
  | [] => None
  | (k, v) :: d' => if decide (key = k) then Some v else dict_get key d'
  end.

(** How often the Stage-2 classifier was invoked. *)
Fixpoint stage2_calls (log : list event) : nat :=
  match log with
  | [] => 0
  | Stage1Call _ :: log' => stage2_calls log'
  | Stage2Call _ :: log' => S (stage2_calls log')
  end.

(** Every probability of an output record. *)
Definition output_probabilities (r : PredictionResult) : list Q :=
  failure_probability r :: (default [] (failure_types r)).*2.

(** The loop of [mode_loop] with the threshold mapping read once. *)
Fixpoint detect (thresholds : gmap string Q) (probs : list matrix) (i : nat)
    (cols : list string) (acc : dict Q * bool) : outcome (dict Q * bool) :=
  match cols with
  | [] => Ret acc
  | col :: rest =>
      channel ← getindex probs i;
      prob ← getitem2 channel 0 1;
      t ← getitem thresholds col;
      if Num.geb prob t
      then detect thresholds probs (S i) rest
             (dict_set col (Num.round3 prob) acc.1, true)
      else detect thresholds probs (S i) rest acc
  end.

(** Every mode of [cols], counted from [i], has a channel in [probs] and a
    threshold. *)
Definition covered (thresholds : gmap string Q) (probs : list matrix)
    (i : nat) (cols : list string) : Prop :=
  ∀ j col, cols !! j = Some col →
    is_Some (mode_probability probs (i + j)) ∧ is_Some (thresholds !! col).

(** The store after the gate was consulted on the frame [X]. *)
Definition after_stage1 (s : Store) (X : DataFrame) : Store :=
  mkStore (globals s) (calls s ++ [Stage1Call X]).

(** The store after both classifiers were consulted on [X]. *)
Definition after_stage2 (s : Store) (X : DataFrame) : Store :=
  mkStore (globals s) ((calls s ++ [Stage1Call X]) ++ [Stage2Call (values X)]).

(** The record lines 52 to 59 assemble from the gate probability and the
    loop's [(failure_types, detected)]. *)
Definition attributed (p_fail : Q) (res : dict Q * bool) : PredictionResult :=
  {| failure := 1;
     failure_probability := Num.round3 p_fail;
     failure_types :=
       Some (if res.2 then res.1
             else dict_set "RNF" (Num.round3 p_fail) res.1) |}.

(** ** Running the pipeline on concrete artifacts *)

Module Demo.

(** A gate that answers [p] whatever the frame. *)
Definition gate (p : Q) : DataFrame → outcome matrix :=
  λ _, Ret [[(1 - p)%Q; p]].

(** A mode classifier that answers the given probabilities, one channel
    each. *)
Definition modes (ps : list Q) : list value → outcome (list matrix) :=
  λ _, Ret ((λ p, [[(1 - p)%Q; p]]) <$> ps).

Definition features : list string :=
  ["Air_temperature"; "Process_temperature"; "Rotational_speed"; "Torque";
   "Tool_wear"; "Type_L"; "Type_M"].

Definition thresholds_AB : gmap string Q :=
  <["A" := (7 # 10)%Q]> (<["B" := (5 # 10)%Q]> ∅).

Definition G (p : Q) (ps : list Q) : Globals :=
  mkGlobals (gate p) (Some (5 # 10)%Q) features (modes ps) thresholds_AB ["A"; "B"].

Definition record : gmap string value :=
  <["Air_temperature" := VFloat (300 # 1)]>
  (<["Torque" := VFloat (40 # 1)]>
  (<["Type_L" := VBool false]>
  (<["vehicle_name" := VStr "truck"]> ∅))).

Definition run (g : Globals) : outcome PredictionResult * list event :=
  let '(r, s) := predict_machine_failure record (mkStore g []) in (r, calls s).

Definition X : DataFrame :=
  [("Air_temperature", VFloat (300 # 1)); ("Process_temperature", NaN);
   ("Rotational_speed", NaN); ("Torque", VFloat (40 # 1)); ("Tool_wear", NaN);
   ("Type_L", VBool false); ("Type_M", NaN)].

(** A store with nothing recorded yet. *)
Definition store (g : Globals) : Store := mkStore g [].

(** A threshold mapping that lacks mode B. *)
Definition thresholds_A : gmap string Q := <["A" := (7 # 10)%Q]> ∅.

(** A gate bundle and a shared configuration whose threshold mapping
    lacks mode B. *)
Definition stage1_dict (p : Q) : Stage1Dict :=
  mkStage1Dict (Some (gate p)) (Some (5 # 10)%Q) (Some features).

Definition config_missing : Config :=
  mkConfig None (Some thresholds_A) (Some ["A"; "B"]).

Definition G_missing (p : Q) (ps : list Q) : Globals :=
  mkGlobals (gate p) (Some (5 # 10)%Q) features (modes ps) thresholds_A ["A"; "B"].

(** Stores for the three situations of the specification's examples, and
    one whose gate probability equals the gate threshold. *)
Definition healthy : Store :=
  store (G (30 # 100) [(90 # 100)%Q; (20 # 100)%Q]).
Definition failing : Store :=
  store (G (80 # 100) [(90 # 100)%Q; (60 # 100)%Q]).
Definition at_threshold : Store :=
  store (G (50 # 100) [(90 # 100)%Q; (20 # 100)%Q]).
Definition unclassified : Store :=
  store (G (60 # 100) [(10 # 100)%Q; (20 # 100)%Q]).

(** A store whose threshold mapping lacks mode B. *)
Definition store_missing (p : Q) : Store :=
  store (G_missing p [(90 # 100)%Q; (60 # 100)%Q]).

End Demo.

From Stdlib Require Import Lqa.

(** ** Further quantities of [predict_machine_failure] *)

(** How often the Stage-1 classifier was invoked. *)
Fixpoint stage1_calls (log : list event) : nat :=
  match log with
  | [] => 0
  | Stage1Call _ :: log' => S (stage1_calls log')
  | Stage2Call _ :: log' => stage1_calls log'
  end.

(** The modes that meet their threshold, in vocabulary order from index [i]
    on, each with its rounded probability. *)
Fixpoint reported (thresholds : gmap string Q) (probs : list matrix) (i : nat)
    (cols : list string) : dict Q :=
  match cols with
  | [] => []
  | col :: rest =>
      match mode_probability probs i, thresholds !! col with
      | Some p, Some t =>
          if Num.geb p t
          then (col, Num.round3 p) :: reported thresholds probs (S i) rest
          else reported thresholds probs (S i) rest
      | _, _ => reported thresholds probs (S i) rest
      end
  end.

(** ** Request schemas *)

(** [app/schema.py]. *)
Module AppSchema.

Record MachineInput : Type := mkMachineInput {
  Air_temperature : Q;
  Process_temperature : Q;
  Rotational_speed : Q;
  Torque : Q;
  Tool_wear : Q;
  Type_L : bool;
  Type_M : bool
}.

(** The field names of the schema, in declaration order. *)
Definition field_names : list string :=
  ["Air_temperature"; "Process_temperature"; "Rotational_speed"; "Torque";
   "Tool_wear"; "Type_L"; "Type_M"].

(** [data.dict()]. *)
Definition dict (data : MachineInput) : gmap string value :=
  <["Air_temperature" := VFloat (Air_temperature data)]>
  (<["Process_temperature" := VFloat (Process_temperature data)]>
  (<["Rotational_speed" := VFloat (Rotational_speed data)]>
  (<["Torque" := VFloat (Torque data)]>
  (<["Tool_wear" := VFloat (Tool_wear data)]>
  (<["Type_L" := VBool (Type_L data)]>
  (<["Type_M" := VBool (Type_M data)]> ∅)))))).

End AppSchema.

(** [backend/app/schema.py]: the same measurements and the vehicle
    metadata the report uses. *)
Module BackendSchema.

Record MachineInput : Type := mkMachineInput {
  Air_temperature : Q;
  Process_temperature : Q;
  Rotational_speed : Q;
  Torque : Q;
  Tool_wear : Q;
  Type_L : bool;
  Type_M : bool;
  vehicle_name : string;
  model : string;
  machine_age : Q;
  total_kilometers : Q
}.

Definition field_names : list string :=
  ["Air_temperature"; "Process_temperature"; "Rotational_speed"; "Torque";
   "Tool_wear"; "Type_L"; "Type_M"; "vehicle_name"; "model"; "machine_age";
   "total_kilometers"].

(** The metadata fields among them. *)
Definition metadata_names : list string :=
  ["vehicle_name"; "model"; "machine_age"; "total_kilometers"].

(** [data.dict()]. *)
Definition dict (data : MachineInput) : gmap string value :=
  <["Air_temperature" := VFloat (Air_temperature data)]>
  (<["Process_temperature" := VFloat (Process_temperature data)]>
  (<["Rotational_speed" := VFloat (Rotational_speed data)]>
  (<["Torque" := VFloat (Torque data)]>
  (<["Tool_wear" := VFloat (Tool_wear data)]>
  (<["Type_L" := VBool (Type_L data)]>
  (<["Type_M" := VBool (Type_M data)]>
  (<["vehicle_name" := VStr (vehicle_name data)]>
  (<["model" := VStr (model data)]>
  (<["machine_age" := VFloat (machine_age data)]>
  (<["total_kilometers" := VFloat (total_kilometers data)]> ∅)))))))))).

(** The measurements of a request, without the metadata. *)
Definition measurements (data : MachineInput) : AppSchema.MachineInput :=
  AppSchema.mkMachineInput (Air_temperature data) (Process_temperature data)
    (Rotational_speed data) (Torque data) (Tool_wear data) (Type_L data)
    (Type_M data).

End BackendSchema.

(** ** The report generator of [backend/app/vehiclereport.py] *)

Module VehicleReport.

(** What the f-string of the prompt says about the failure modes: one line
    per mode, holding the mode and [prob * 100], or the fixed sentence
    "No specific failure modes detected". *)
Inductive failure_info : Type :=
  | Details (lines : list (string * Q))
  | NoSpecificModes.

(** The values the prompt interpolates, in the order of the f-string. *)
Record Prompt : Type := mkPrompt {
  p_vehicle_name : string;
  p_model : string;
  p_quality : string;
  p_vehicle_type : string;
  p_vehicle_age : Q;
  p_total_kilometers : Q;
  p_failure_status : string;
  p_failure_percent : Q;
  p_failure_info : failure_info
}.

(** The arguments of [client.chat.completions.create]. *)
Record ChatRequest : Type := mkChatRequest {
  req_model : string;
  req_system : string;
  req_user : Prompt;
  req_temperature : Q;
  req_max_tokens : Z
}.

(** The Groq client: the request answered by the message content of each
    choice ([None] where a choice has no content), or an exception. *)
Record Groq : Type := mkGroq {
  create : ChatRequest → outcome (list (option string))
}.

Record VehicleInfo : Type := mkVehicleInfo {
  name : string;
  model : string;
  type : string;
  quality : string;
  age_years : Q;
  total_km : Q
}.

(** The ["maintenance_report"] dict; a key the branch does not set is
    [None]. *)
Record MaintenanceReport : Type := mkMaintenanceReport {
  summary : option string;
  report : option string;
  status : string;
  vehicle_info : option VehicleInfo;
  groq_available : bool;
  error : option string
}.

(** [{**prediction_result, "maintenance_report": ...}]. *)
Record DetailedReport : Type := mkDetailedReport {
  prediction : PredictionResult;
  maintenance_report : MaintenanceReport
}.

Section Runtime.

(** [str.strip] and [str(e)]. *)
Variable strip : string → string.
Variable str : exn → string.

(** The list comprehension of lines 47 to 51. *)
Definition failure_details (failure_types : dict Q) : list (string * Q) :=
  omap (λ '(mode, prob),
          if Num.ltb 0 prob then Some (mode, (prob * (100 # 1))%Q) else None)
       failure_types.

(** [generate_maintenance_report], with the requests sent to Groq. *)
Definition generate_maintenance_report (client : option Groq)
    (prediction_result : PredictionResult) (vehicle_type : string)
    (vehicle_age total_kilometers : Q) (vehicle_name model : string)
  : DetailedReport * list ChatRequest :=
  let failure_status :=
    if decide (failure prediction_result = 1)
    then "CRITICAL - Failure Detected" else "Operational" in
  let failure_prob := failure_probability prediction_result in
  let failure_types := default [] (failure_types prediction_result) in
  let quality :=
    if decide (vehicle_type = "M") then "Medium Quality" else "Low Quality" in
  let failure_details := failure_details failure_types in
  let failure_info :=
    match failure_details with
    | [] => NoSpecificModes
    | _ => Details failure_details
    end in
  let prompt :=
    mkPrompt vehicle_name model quality vehicle_type vehicle_age
      total_kilometers failure_status (failure_prob * (100 # 1))%Q
      failure_info in
  match client with
  | None =>
      (mkDetailedReport prediction_result
         {| summary := Some "Groq API key not configured";
            report := None;
            status := failure_status;
            vehicle_info := None;
            groq_available := false;
            error := None |},
       [])
  | Some groq =>
      let request :=
        mkChatRequest "meta-llama/llama-4-scout-17b-16e-instruct"
          "You are a senior predictive maintenance engineer with over 20 years of experience."
          prompt (7 # 10) 1500 in
      let report_text : outcome string :=
        choices ← create groq request;
        match choices with
        | [] => Ret "No report generated."
        | Some content :: _ => Ret (strip content)
        | None :: _ =>
            Raise (AttributeError "'NoneType' object has no attribute 'strip'")
        end in
      match report_text with
      | Ret report_text =>
          (mkDetailedReport prediction_result
             {| summary := None;
                report := Some report_text;
                status := failure_status;
                vehicle_info :=
                  Some (mkVehicleInfo vehicle_name model vehicle_type quality
                          vehicle_age total_kilometers);
                groq_available := true;
                error := None |},
           [request])
      | Raise e =>
          (mkDetailedReport prediction_result
             {| summary := Some "Failed to generate Groq report";
                report := None;
                status := failure_status;
                vehicle_info := None;
                groq_available := false;
                error := Some (str e) |},
           [request])
      end
  end.

End Runtime.

End VehicleReport.

(** ** The HTTP endpoints *)

(** What a handler gives back: a body, or the [HTTPException] it raised. *)
Inductive response (A : Type) : Type :=
  | OK (body : A)
  | HTTPException (status_code : Z) (detail : string).
Arguments OK {A} body.
Arguments HTTPException {A} status_code detail.

(** [backend/app/main.py]. *)
Module BackendMain.

Section Runtime.
Variable strip : string → string.
Variable str : exn → string.

(** [POST /predict], with the requests sent to Groq. *)
Definition predict (client : option VehicleReport.Groq)
    (data : BackendSchema.MachineInput) (s : Store)
  : response VehicleReport.DetailedReport * Store
    * list VehicleReport.ChatRequest :=
  match predict_machine_failure (BackendSchema.dict data) s with
  | (Ret prediction_result, s') =>
      let vehicle_type := if BackendSchema.Type_L data then "L" else "M" in
      let '(detailed_report, requests) :=
        VehicleReport.generate_maintenance_report strip str client
          prediction_result vehicle_type
          (BackendSchema.machine_age data)
          (BackendSchema.total_kilometers data)
          (BackendSchema.vehicle_name data)
          (BackendSchema.model data) in
      (OK detailed_report, s', requests)
  | (Raise e, s') => (HTTPException 500 (str e), s', [])
  end.

End Runtime.

End BackendMain.

(** ** The rest of the [Predictor] class of [src/predict.py] *)

Module PredictorOps.

Import PredictPy.

(** What the class asks of its surroundings, over file systems [FS]:
    [Path(p).exists()]; opening [p] for reading and unpickling it; lines 50
    to 52 of [save_model] (creating the parent directories, opening [p] for
    writing, pickling the model), which may change the file system even
    when they raise; [estimator.fit(X, y)], which leaves the estimator
    changed even when it raises; and a fresh [LogisticRegression()]. *)
Record Surroundings (FS : Type) : Type := mkSurroundings {
  path_exists : FS → string → bool;
  pickle_load : FS → string → outcome Estimator;
  pickle_dump : FS → string → Estimator → outcome () * FS;
  fit : Estimator → matrix → list Z → outcome () * Estimator;
  LogisticRegression : Estimator
}.
Arguments path_exists {FS} _ _ _.
Arguments pickle_load {FS} _ _ _.
Arguments pickle_dump {FS} _ _ _ _.
Arguments fit {FS} _ _ _ _.
Arguments LogisticRegression {FS} _.

(** A line written by [print]: [Info text arg] is [f"{text}{arg}"]. *)
Inductive line : Type :=
  | Plain (text : string)
  | Info (text arg : string)
  | Failure (l : printed).

(** The file system and what has been printed. *)
Record World (FS : Type) : Type := mkWorld {
  fs : FS;
  stdout : list line
}.
Arguments mkWorld {FS} fs stdout.
Arguments fs {FS} _.
Arguments stdout {FS} _.

Definition print {FS} (l : line) (w : World FS) : World FS :=
  mkWorld (fs w) (stdout w ++ [l]).

Section Methods.
Context {FS : Type} (env : Surroundings FS).

(** [self.load_model(model_path)]: the outcome, [self] afterwards and the
    world afterwards. *)
Definition load_model (self : Predictor) (model_path : string) (w : World FS)
  : outcome () * Predictor * World FS :=
  match pickle_load env (fs w) model_path with
  | Ret m =>
      (Ret (), mkPredictor (Some m) (PredictPy.model_path self),
       print (Info "Model loaded successfully from " model_path) w)
  | Raise e =>
      (Raise e, self, print (Failure (ErrorLine "Error loading model: " e)) w)
  end.

(** [Predictor(model_path)]; an absent argument is [None]. *)
Definition init (model_path : option string) (w : World FS)
  : outcome Predictor * World FS :=
  let self := mkPredictor None model_path in
  match model_path with
  | Some path =>
      if negb (String.eqb path "") && path_exists env (fs w) path
      then
        match load_model self path w with
        | (Ret (), self', w') => (Ret self', w')
        | (Raise e, _, w') => (Raise e, w')
        end
      else (Ret self, w)
  | None => (Ret self, w)
  end.

(** [self.save_model(model_path)]. *)
Definition save_model (self : Predictor) (model_path : string) (w : World FS)
  : outcome () * World FS :=
  match PredictPy.model self with
  | None => (Raise (ValueError "No model to save. Train a model first."), w)
  | Some m =>
      match pickle_dump env (fs w) model_path m with
      | (Ret (), fs') =>
          (Ret (),
           print (Info "Model saved successfully to " model_path)
             (mkWorld fs' (stdout w)))
      | (Raise e, fs') =>
          (Raise e,
           print (Failure (ErrorLine "Error saving model: " e))
             (mkWorld fs' (stdout w)))
      end
  end.

(** [self.train(X_train, y_train, model)]. *)
Definition train (self : Predictor) (X_train : matrix) (y_train : list Z)
    (model : option Estimator) (w : World FS)
  : outcome () * Predictor * World FS :=
  let chosen :=
    match model with
    | Some m => m
    | None =>
        match PredictPy.model self with
        | Some current => current
        | None => LogisticRegression env
        end
    end in
  let w1 := print (Plain "Training model...") w in
  match fit env chosen X_train y_train with
  | (Ret (), fitted) =>
      (Ret (), mkPredictor (Some fitted) (PredictPy.model_path self),
       print (Plain "Training complete!") w1)
  | (Raise e, touched) =>
      (Raise e, mkPredictor (Some touched) (PredictPy.model_path self), w1)
  end.

(** The method [predict], printing into the world. *)
Definition predict_in (self : Predictor) (X : matrix) (w : World FS)
  : outcome (list Z) * World FS :=
  let '(o, printed) := PredictPy.predict self X in
  (o, mkWorld (fs w) (stdout w ++ (Failure <$> printed))).

(** The standalone function [predict(model_path, input_data)]. *)
Definition predict (model_path : option string) (input_data : matrix)
    (w : World FS) : outcome (list Z) * World FS :=
  match init model_path w with
  | (Ret predictor, w') => predict_in predictor input_data w'
  | (Raise e, w') => (Raise e, w')
  end.

End Methods.

End PredictorOps.

(** ** Concrete surroundings for the added properties *)

Module Fixtures.

(** A request for a low-quality vehicle. *)
Definition request : BackendSchema.MachineInput :=
  BackendSchema.mkMachineInput (300 # 1) (310 # 1) (1500 # 1) (40 # 1) (10 # 1)
    true false "truck-7" "T800" (3 # 1) (120000 # 1).

(** The same measurements under other metadata. *)
Definition request_renamed : BackendSchema.MachineInput :=
  BackendSchema.mkMachineInput (300 # 1) (310 # 1) (1500 # 1) (40 # 1) (10 # 1)
    true false "van-2" "V1" (9 # 1) (5 # 1).

(** [str(e)] for the exceptions whose text the code fixes. *)
Definition str (e : exn) : string :=
  match e with
  | KeyError key => String.append "'" (String.append key "'")
  | ValueError msg | AttributeError msg | ModelError msg => msg
  | IndexError => "index out of range"
  | TypeError => "unsupported comparison"
  end.

(** A [strip] that removes nothing. *)
Definition strip (content : string) : string := content.

(** A Groq client that answers one choice, one that raises, and one that
    answers no choice. *)
Definition groq_ok : VehicleReport.Groq :=
  VehicleReport.mkGroq (λ _, Ret [Some "Replace the spindle bearing."]).
Definition groq_down : VehicleReport.Groq :=
  VehicleReport.mkGroq (λ _, Raise (ModelError "rate limit")).
Definition groq_silent : VehicleReport.Groq :=
  VehicleReport.mkGroq (λ _, Ret []).

(** An estimator that predicts class 1 for every row and has no
    [predict_proba]. *)
Definition always_one : PredictPy.Estimator :=
  PredictPy.mkEstimator (λ X, Ret ((λ _, 1) <$> X)) None.

(** An estimator that is not fitted. *)
Definition unfitted : PredictPy.Estimator :=
  PredictPy.mkEstimator (λ _, Raise (ModelError "NotFittedError")) None.

(** A flat file system of pickled estimators, on which every write
    succeeds, and a [fit] that turns any estimator into [always_one]. *)
Definition flat : PredictorOps.Surroundings (gmap string PredictPy.Estimator) :=
  PredictorOps.mkSurroundings _
    (λ fs path, bool_decide (is_Some (fs !! path)))
    (λ fs path,
       match fs !! path with
       | Some m => Ret m
       | None => Raise (ModelError "FileNotFoundError")
       end)
    (λ fs path m, (Ret (), <[path := m]> fs))
    (λ _ _ _, (Ret (), always_one))
    unfitted.

(** Module globals whose gate raises, and whose Stage-2 classifier raises. *)
Definition G_gate_raises : Globals :=
  mkGlobals (λ _, Raise (ModelError "bad input shape")) (Some (5 # 10)%Q)
    Demo.features (Demo.modes [(90 # 100)%Q; (60 # 100)%Q])
    Demo.thresholds_AB ["A"; "B"].
Definition G_modes_raise : Globals :=
  mkGlobals (Demo.gate (80 # 100)) (Some (5 # 10)%Q) Demo.features
    (λ _, Raise (ModelError "bad input shape")) Demo.thresholds_AB ["A"; "B"].

(** A configuration that has its own gate threshold, 0.9, beside the
    bundle's 0.5; a bundle without one; a configuration without one. *)
Definition config_both : Config :=
  mkConfig (Some (9 # 10)%Q) (Some Demo.thresholds_AB) (Some ["A"; "B"]).
Definition stage1_dict_bare (p : Q) : Stage1Dict :=
  mkStage1Dict (Some (Demo.gate p)) None (Some Demo.features).
Definition config_bare : Config :=
  mkConfig None (Some Demo.thresholds_AB) (Some ["A"; "B"]).

(** A vocabulary that names a column the request schema does not have. *)
Definition dataset_features : list string :=
  ["Air temperature [K]"; "Torque"].

(** Surroundings in which every path exists and none unpickles. *)
Definition torn : PredictorOps.Surroundings (gmap string PredictPy.Estimator) :=
  PredictorOps.mkSurroundings _
    (λ _ _, true)
    (λ _ _, Raise (ModelError "UnpicklingError"))
    (λ fs path m, (Raise (ModelError "PermissionError"), fs))
    (λ _ _ _, (Ret (), always_one))
    unfitted.

(** A world with no file and nothing printed. *)
Definition empty_world : PredictorOps.World (gmap string PredictPy.Estimator) :=
  PredictorOps.mkWorld ∅ [].

End Fixtures.

(** ** The call on a heap of mutable objects

    Python binds the module-level names to objects that any code holding a
    reference can change: the threshold dict, the vocabulary lists, the two
    classifiers, whose [predict_proba] is free to change the classifier it
    is called on.  Here [predict_machine_failure] runs on such a heap: the
    names are read from the module's namespace, [failure_types = {}]
    allocates a new dict, and [failure_types[col] = ...] writes to the dict
    its reference points to. *)

Module Heap.

Section Classifiers.

(** The state a classifier object carries, and [predict_proba] as a
    function of that state: its result and the state it leaves. *)
Context {state1 state2 : Type}.
Variable predict_proba1 : state1 → DataFrame → outcome matrix * state1.
Variable predict_proba2 : state2 → list value → outcome (list matrix) * state2.

Inductive object : Type :=
  | DictObj (d : dict Q)
  | ListObj (l : list string)
  | GateObj (st : state1)
  | ModesObj (st : state2).

(** The namespace of [predictor.py]: each name with the reference, or the
    float, bound to it. *)
Record Namespace : Type := mkNamespace {
  ref_stage1_model : positive;
  val_STAGE1_THRESHOLD : option Q;
  ref_STAGE1_FEATURES : positive;
  ref_stage2_model : positive;
  ref_FAILURE_THRESHOLDS : positive;
  ref_FAILURE_COLS : positive
}.

(** The interpreter state: the namespace, the objects by reference, and the
    reference the next allocation gets. *)
Record PyState : Type := mkPyState {
  names : Namespace;
  objects : gmap positive object;
  next : positive
}.

Definition H (A : Type) : Type := PyState → outcome A * PyState.

#[export] Instance H_ret : MRet H := λ A a st, (Ret a, st).
#[export] Instance H_bind : MBind H := λ A B f m st,
  match m st with
  | (Ret a, st') => f a st'
  | (Raise e, st') => (Raise e, st')
  end.

Definition pure_code {A} (o : outcome A) : H A := λ st, (o, st).

(** Read a module-level name. *)
Definition name {A} (binding : Namespace → A) : H A :=
  λ st, (Ret (binding (names st)), st).

(** Replace the object a reference points to. *)
Definition store_object (l : positive) (o : object) (st : PyState) : PyState :=
  mkPyState (names st) (<[l := o]> (objects st)) (next st).

(** [{}]: a new, empty dict. *)
Definition new_dict : H positive :=
  λ st, (Ret (next st),
         mkPyState (names st) (<[next st := DictObj []]> (objects st))
           (Pos.succ (next st))).

(** [d[key]] on the dict at [l]. *)
Definition dict_getitem (l : positive) (key : string) : H Q :=
  λ st, match objects st !! l with
        | Some (DictObj d) =>
            match dict_get key d with
            | Some v => (Ret v, st)
            | None => (Raise (KeyError key), st)
            end
        | _ => (Raise TypeError, st)
        end.

(** [d[key] = v] on the dict at [l]. *)
Definition dict_setitem (l : positive) (key : string) (v : Q) : H () :=
  λ st, match objects st !! l with
        | Some (DictObj d) => (Ret (), store_object l (DictObj (dict_set key v d)) st)
        | _ => (Raise TypeError, st)
        end.

(** The elements of the list at [l]. *)
Definition list_items (l : positive) : H (list string) :=
  λ st, match objects st !! l with
        | Some (ListObj items) => (Ret items, st)
        | _ => (Raise TypeError, st)
        end.

(** [model.predict_proba(X)] on the gate at [l]: the call leaves the
    object in the state [predict_proba] leaves it in. *)
Definition call_gate (l : positive) (X : DataFrame) : H matrix :=
  λ st, match objects st !! l with
        | Some (GateObj c) =>
            let '(o, c') := predict_proba1 c X in
            (o, store_object l (GateObj c') st)
        | _ => (Raise (AttributeError "predict_proba"), st)
        end.

(** The same on the Stage-2 classifier at [l]. *)
Definition call_modes (l : positive) (X_array : list value) : H (list matrix) :=
  λ st, match objects st !! l with
        | Some (ModesObj c) =>
            let '(o, c') := predict_proba2 c X_array in
            (o, store_object l (ModesObj c') st)
        | _ => (Raise (AttributeError "predict_proba"), st)
        end.

(** What the call returns: [failure_types] is [None] or the reference of
    the dict the call built. *)
Record Returned : Type := mkReturned {
  r_failure : Z;
  r_failure_probability : Q;
  r_failure_types : option positive
}.

(** The loop of lines 46 to 50 from index [i] on, writing to the dict at
    [failure_types]. *)
Fixpoint mode_loop (probs : list matrix) (failure_types : positive) (i : nat)
    (cols : list string) (detected : bool) : H bool :=
  match cols with
  | [] => mret detected
  | col :: rest =>
      channel ← pure_code (getindex probs i);
      prob ← pure_code (getitem2 channel 0 1);
      thresholds ← name ref_FAILURE_THRESHOLDS;
      t ← dict_getitem thresholds col;
      if Num.geb prob t
      then dict_setitem failure_types col (Num.round3 prob);;
           mode_loop probs failure_types (S i) rest true
      else mode_loop probs failure_types (S i) rest detected
  end.

(** Lines 21 to 59. *)
Definition predict_machine_failure (input_data : gmap string value)
  : H Returned :=
  features_ref ← name ref_STAGE1_FEATURES;
  features ← list_items features_ref;
  let X := reindex input_data features in
  model ← name ref_stage1_model;
  proba ← call_gate model X;
  p_fail ← pure_code (getitem2 proba 0 1);
  threshold ← name val_STAGE1_THRESHOLD;
  below ← pure_code (lt_threshold p_fail threshold);
  if below : bool then
    mret (mkReturned 0 (Num.round3 p_fail) None)
  else
    let X_array := values X in
    model2 ← name ref_stage2_model;
    probs ← call_modes model2 X_array;
    failure_types ← new_dict;
    cols_ref ← name ref_FAILURE_COLS;
    cols ← list_items cols_ref;
    detected ← mode_loop probs failure_types 0 cols false;
    (if detected : bool then mret ()
     else dict_setitem failure_types "RNF" (Num.round3 p_fail));;
    mret (mkReturned 1 (Num.round3 p_fail) (Some failure_types)).

(** The dict a reference points to, by content. *)
Definition dict_at (st : PyState) (l : positive) : dict Q :=
  match objects st !! l with
  | Some (DictObj d) => d
  | _ => []
  end.

(** What the caller reads off a call's outcome in the state [st]: the
    record with its [failure_types] by content. *)
Definition observed (st : PyState) (o : outcome Returned)
  : outcome PredictionResult :=
  match o with
  | Ret r =>
      Ret (mkResult (r_failure r) (r_failure_probability r)
             (dict_at st <$> r_failure_types r))
  | Raise e => Raise e
  end.

(** The names are bound to objects of the kinds the module loaded, and
    every object in use was allocated before [next]. *)
Definition well_formed (st : PyState) : Prop :=
  (∃ c, objects st !! ref_stage1_model (names st) = Some (GateObj c)) ∧
  (∃ c, objects st !! ref_stage2_model (names st) = Some (ModesObj c)) ∧
  (∃ l, objects st !! ref_STAGE1_FEATURES (names st) = Some (ListObj l)) ∧
  (∃ l, objects st !! ref_FAILURE_COLS (names st) = Some (ListObj l)) ∧
  (∃ d, objects st !! ref_FAILURE_THRESHOLDS (names st) = Some (DictObj d)) ∧
  (∀ l, is_Some (objects st !! l) → (l < next st)%positive).

(** The module globals of the first model that a heap state stands for. *)
Definition globals_of (st : PyState) : Globals :=
  mkGlobals
    (match objects st !! ref_stage1_model (names st) with
     | Some (GateObj c) => λ X, (predict_proba1 c X).1
     | _ => λ _, Raise (AttributeError "predict_proba")
     end)
    (val_STAGE1_THRESHOLD (names st))
    (match objects st !! ref_STAGE1_FEATURES (names st) with
     | Some (ListObj l) => l
     | _ => []
     end)
    (match objects st !! ref_stage2_model (names st) with
     | Some (ModesObj c) => λ X, (predict_proba2 c X).1
     | _ => λ _, Raise (AttributeError "predict_proba")
     end)
    (list_to_map (dict_at st (ref_FAILURE_THRESHOLDS (names st))))
    (match objects st !! ref_FAILURE_COLS (names st) with
     | Some (ListObj l) => l
     | _ => []
     end).

End Classifiers.

End Heap.

(** ** Concrete heaps *)

Module HeapFixtures.

(** A gate that answers [p] and keeps no state; a Stage-2 classifier that
    answers the given probabilities and keeps no state. *)
Definition gate (p : Q) : () → DataFrame → outcome matrix * () :=
  λ c _, (Ret [[(1 - p)%Q; p]], c).
Definition modes (ps : list Q) : () → list value → outcome (list matrix) * () :=
  λ c _, (Ret ((λ p, [[(1 - p)%Q; p]]) <$> ps), c).

(** A gate that counts its calls and answers 0.3 on the first and 0.8 on
    every later one. *)
Definition drifting_gate : nat → DataFrame → outcome matrix * nat :=
  λ n _, (Ret [[(if n is O then 70 # 100 else 20 # 100)%Q;
                (if n is O then 30 # 100 else 80 # 100)%Q]], S n).
Definition plain_modes (ps : list Q)
  : () → list value → outcome (list matrix) * () := modes ps.

Definition namespace : Heap.Namespace :=
  Heap.mkNamespace 1 (Some (5 # 10)%Q) 2 3 4 5.

(** The module as loaded: the two classifiers, the two vocabularies and the
    threshold dict, at the references of [namespace]. *)
Definition loaded {state1 state2 : Type} (c1 : state1) (c2 : state2)
  : @Heap.PyState state1 state2 :=
  Heap.mkPyState namespace
    (<[1%positive := Heap.GateObj c1]>
     (<[2%positive := Heap.ListObj Demo.features]>
     (<[3%positive := Heap.ModesObj c2]>
     (<[4%positive := Heap.DictObj [("A", (7 # 10)%Q); ("B", (5 # 10)%Q)]]>
     (<[5%positive := Heap.ListObj ["A"; "B"]]> ∅)))))
    6.

End HeapFixtures.

(** ** Examples *)

Example round3_0_3 : Num.round3 (3 # 10) = (300 # 1000)%Q.
Proof. reflexivity. Qed.

Example round3_down : Num.round3 (12344 # 100000) = (123 # 1000)%Q.
Proof. reflexivity. Qed.

Example round3_up : Num.round3 (4996 # 10000) = (500 # 1000)%Q.
Proof. reflexivity. Qed.

Example round3_tie_even : Num.round3 (25 # 10000) = (2 # 1000)%Q.
Proof. reflexivity. Qed.

Example round3_tie_odd : Num.round3 (35 # 10000) = (4 # 1000)%Q.
Proof. reflexivity. Qed.

Example reindex_record : reindex Demo.record Demo.features = Demo.X.
Proof. vm_compute. reflexivity. Qed.

(** Example 1 of the specification. *)
Example example_1 :
  Demo.run (Demo.G (30 # 100) [(90 # 100)%Q; (20 # 100)%Q])
  = (Ret (mkResult 0 (300 # 1000) None), [Stage1Call Demo.X]).
Proof. vm_compute. reflexivity. Qed.

(** Example 2 of the specification. *)
Example example_2 :
  Demo.run (Demo.G (80 # 100) [(90 # 100)%Q; (20 # 100)%Q])
  = (Ret (mkResult 1 (800 # 1000) (Some [("A", (900 # 1000)%Q)])),
     [Stage1Call Demo.X; Stage2Call (values Demo.X)]).
Proof. vm_compute. reflexivity. Qed.

(** Example 3 of the specification. *)
Example example_3 :
  Demo.run (Demo.G (60 # 100) [(10 # 100)%Q; (20 # 100)%Q])
  = (Ret (mkResult 1 (600 # 1000) (Some [("RNF", (600 # 1000)%Q)])),
     [Stage1Call Demo.X; Stage2Call (values Demo.X)]).
Proof. vm_compute. reflexivity. Qed.

(** Two modes reported together. *)
Example multi_label_cooccurrence :
  (predict_machine_failure Demo.record Demo.failing).1
  = Ret (mkResult 1 (800 # 1000)
           (Some [("A", (900 # 1000)%Q); ("B", (600 # 1000)%Q)])).
Proof. vm_compute. reflexivity. Qed.

(** The gate compares the unrounded probability: 0.4996 rounds to 0.5 but
    is below the threshold 0.5. *)
Example gate_compares_unrounded :
  Demo.run (Demo.G (4996 # 10000) [])
  = (Ret (mkResult 0 (500 # 1000) None), [Stage1Call Demo.X]).
Proof. vm_compute. reflexivity. Qed.

(** So does each mode: 0.6996 rounds to 0.7 but is below A's threshold. *)
Example mode_compares_unrounded :
  (Demo.run (Demo.G (80 # 100) [(6996 # 10000)%Q; (20 # 100)%Q])).1
  = Ret (mkResult 1 (800 # 1000) (Some [("RNF", (800 # 1000)%Q)])).
Proof. vm_compute. reflexivity. Qed.

(** ** Numbers: comparisons and rounding *)

Section NumFacts.
Local Open Scope Q_scope.

Lemma ltb_lt (x y : Q) : Num.ltb x y = true ↔ x < y.
Proof.
  unfold Num.ltb. rewrite negb_true_iff, <- not_true_iff_false, Qle_bool_iff.
  split; [apply Qnot_le_lt | apply Qlt_not_le].
Qed.

Lemma ltb_ge (x y : Q) : Num.ltb x y = false ↔ y <= x.
Proof.
  unfold Num.ltb. rewrite negb_false_iff. apply Qle_bool_iff.
Qed.

Lemma geb_ge (x y : Q) : Num.geb x y = true ↔ y <= x.
Proof. apply Qle_bool_iff. Qed.

Lemma geb_lt (x y : Q) : Num.geb x y = false ↔ x < y.
Proof.
  unfold Num.geb. rewrite <- not_true_iff_false, Qle_bool_iff.
  split; [apply Qnot_le_lt | apply Qlt_not_le].
Qed.

(** Rounding to the nearest integer stays between integer bounds. *)
Lemma round_half_even_bounds (a b : Z) (x : Q) :
  inject_Z a <= x → x <= inject_Z b →
  (a <= Num.round_half_even x <= b)%Z.
Proof.
  destruct x as [n d]. unfold Qle, inject_Z, Num.round_half_even. simpl.
  intros Ha Hb.
  pose proof (Z.div_mod n (Z.pos d) ltac:(lia)) as Hdm.
  pose proof (Z.mod_pos_bound n (Z.pos d) ltac:(lia)) as Hr.
  set (fl := (n / Z.pos d)%Z) in *. set (r := (n mod Z.pos d)%Z) in *.
  assert (a <= fl)%Z as Hlow by nia.
  assert (fl <= b)%Z as Hhigh by nia.
  assert (fl = b → r = 0%Z) as Htop by nia.
  destruct (Z.compare_spec (2 * r) (Z.pos d)) as [He|Hl|Hg].
  - destruct (Z.even fl); [lia|]. split; [lia|].
    destruct (Z.eq_dec fl b) as [E|]; [|lia]. specialize (Htop E). lia.
  - lia.
  - split; [lia|]. destruct (Z.eq_dec fl b) as [E|]; [|lia].
    specialize (Htop E). lia.
Qed.

(** The rounded value is at most half a unit away. *)
Lemma round_half_even_close (x : Q) :
  inject_Z (Num.round_half_even x) - x <= 1 # 2 ∧
  x - inject_Z (Num.round_half_even x) <= 1 # 2.
Proof.
  destruct x as [n d]. unfold Qle, Qminus, Qplus, Qopp, inject_Z,
    Num.round_half_even. simpl.
  pose proof (Z.div_mod n (Z.pos d) ltac:(lia)) as Hdm.
  pose proof (Z.mod_pos_bound n (Z.pos d) ltac:(lia)) as Hr.
  set (fl := (n / Z.pos d)%Z) in *. set (r := (n mod Z.pos d)%Z) in *.
  destruct (Z.compare_spec (2 * r) (Z.pos d)) as [He|Hl|Hg];
    [destruct (Z.even fl)| |]; split; nia.
Qed.

(** [round(x, 3)] is a whole number of thousandths. *)
Lemma round3_thousandths (x : Q) :
  ∃ k : Z, Num.round3 x = k # 1000.
Proof. eexists. reflexivity. Qed.

(** [round(x, 3)] of a probability is a probability. *)
Lemma round3_unit_interval (x : Q) :
  0 <= x <= 1 → 0 <= Num.round3 x <= 1.
Proof.
  intros [H0 H1]. unfold Num.round3.
  destruct (round_half_even_bounds 0 1000 (x * (1000 # 1))) as [Hl Hu].
  - destruct x as [n d]. unfold Qle in *. simpl in *. lia.
  - destruct x as [n d]. unfold Qle in *. simpl in *. lia.
  - unfold Qle. simpl. lia.
Qed.

(** [round(x, 3)] is within half a thousandth of [x]. *)
Lemma round3_close (x : Q) :
  Num.round3 x - x <= 1 # 2000 ∧ x - Num.round3 x <= 1 # 2000.
Proof.
  destruct (round_half_even_close (x * (1000 # 1))) as [Hu Hl].
  unfold Num.round3. set (k := Num.round_half_even (x * (1000 # 1))) in *.
  destruct x as [n d]. unfold Qle, Qminus, Qplus, Qopp, Qmult, inject_Z in *.
  simpl in *. split; lia.
Qed.

End NumFacts.

(** ** Dicts *)

Section DictFacts.
Context {V : Type}.
Implicit Types (d : dict V) (k : string) (v : V).

Lemma dict_set_nonempty k v d : dict_set k v d ≠ [].
Proof. destruct d as [|[k' w] d]; simpl; [|case_decide]; discriminate. Qed.

Lemma dict_get_set_eq k v d : dict_get k (dict_set k v d) = Some v.
Proof.
  induction d as [|[k' w] d IH]; simpl.
  - by rewrite decide_True.
  - destruct (decide (k = k')) as [->|Hne]; simpl.
    + by rewrite decide_True.
    + by rewrite decide_False.
Qed.

Lemma dict_get_set_ne k k' v d :
  k ≠ k' → dict_get k (dict_set k' v d) = dict_get k d.
Proof.
  intros Hne. induction d as [|[k0 w] d IH]; simpl.
  - by rewrite decide_False.
  - destruct (decide (k' = k0)) as [->|Hne0]; simpl.
    + by rewrite !decide_False.
    + destruct (decide (k = k0)); done.
Qed.

Lemma elem_of_dict_set k v k' v' d :
  (k, v) ∈ dict_set k' v' d → (k, v) = (k', v') ∨ (k, v) ∈ d.
Proof.
  induction d as [|[k0 w] d IH]; simpl.
  - intros ->%list_elem_of_singleton. by left.
  - destruct (decide (k' = k0)) as [->|Hne].
    + intros [->|Hin]%elem_of_cons; [by left|]. right. by apply elem_of_cons; right.
    + intros [->|Hin]%elem_of_cons.
      * right. by apply elem_of_cons; left.
      * destruct (IH Hin) as [?|?]; [by left|]. right. by apply elem_of_cons; right.
Qed.

Lemma dict_get_Some_elem_of k v d : dict_get k d = Some v → (k, v) ∈ d.
Proof.
  induction d as [|[k0 w] d IH]; simpl; [done|].
  destruct (decide (k = k0)) as [->|Hne].
  - intros [= ->]. by apply elem_of_cons; left.
  - intros H. apply elem_of_cons; right. by apply IH.
Qed.

Lemma dict_get_is_Some_keys k d : is_Some (dict_get k d) ↔ k ∈ keys d.
Proof.
  unfold keys. induction d as [|[k0 w] d IH]; simpl.
  - split; [by intros [? ?]|by intros ?%elem_of_nil].
  - destruct (decide (k = k0)) as [->|Hne].
    + split; [intros _; by apply elem_of_cons; left|by eauto].
    + rewrite IH. split; [intros ?; by apply elem_of_cons; right|].
      by intros [?|?]%elem_of_cons.
Qed.

End DictFacts.

(** ** The mode loop *)

Section LoopFacts.
Local Open Scope Q_scope.
Variable thresholds : gmap string Q.
Variable probs : list matrix.
Implicit Types (cols : list string) (acc : dict Q * bool) (i j : nat).

(** One iteration whose probability and threshold both exist. *)
Lemma detect_step i col rest acc p t :
  mode_probability probs i = Some p →
  thresholds !! col = Some t →
  detect thresholds probs i (col :: rest) acc
  = if Num.geb p t
    then detect thresholds probs (S i) rest (dict_set col (Num.round3 p) acc.1, true)
    else detect thresholds probs (S i) rest acc.
Proof.
  unfold mode_probability. intros Hp Ht. simpl.
  unfold getindex, getitem2, getitem, mbind, outcome_bind.
  destruct (probs !! i) as [channel|]; simpl in *; [|done].
  destruct (channel !! 0%nat) as [row|]; simpl in *; [|done].
  rewrite Hp, Ht. done.
Qed.

(** An iteration whose probability exists and whose threshold key is
    missing raises [KeyError]. *)
Lemma detect_step_missing i col rest acc p :
  mode_probability probs i = Some p →
  thresholds !! col = None →
  detect thresholds probs i (col :: rest) acc = Raise (KeyError col).
Proof.
  unfold mode_probability. intros Hp Ht. simpl.
  unfold getindex, getitem2, getitem, mbind, outcome_bind.
  destruct (probs !! i) as [channel|]; simpl in *; [|done].
  destruct (channel !! 0%nat) as [row|]; simpl in *; [|done].
  rewrite Hp, Ht. done.
Qed.

(** A returning iteration had a probability and a threshold. *)
Lemma detect_step_inv i col rest acc res :
  detect thresholds probs i (col :: rest) acc = Ret res →
  ∃ p t, mode_probability probs i = Some p ∧ thresholds !! col = Some t.
Proof.
  unfold mode_probability. simpl.
  unfold getindex, getitem2, getitem, mbind, outcome_bind.
  destruct (probs !! i) as [channel|]; simpl; [|done].
  destruct (channel !! 0%nat) as [row|]; simpl; [|done].
  destruct (row !! 1%nat) as [p|]; simpl; [|done].
  destruct (thresholds !! col) as [t|]; simpl; [|done].
  eauto.
Qed.

Lemma covered_cons i col rest :
  covered thresholds probs i (col :: rest) →
  is_Some (mode_probability probs i) ∧ is_Some (thresholds !! col) ∧
  covered thresholds probs (S i) rest.
Proof.
  intros Hcov. destruct (Hcov 0%nat col eq_refl) as [Hp Ht].
  rewrite Nat.add_0_r in Hp. split; [done|]. split; [done|].
  intros j c Hj. specialize (Hcov (S j) c Hj).
  by rewrite <- Nat.add_succ_comm in Hcov.
Qed.

(** The loop returns when every mode has a channel and a threshold. *)
Lemma detect_total cols : ∀ i acc,
  covered thresholds probs i cols → ∃ res, detect thresholds probs i cols acc = Ret res.
Proof.
  induction cols as [|col rest IH]; intros i acc Hc; [by eexists|].
  apply covered_cons in Hc as ([p Hp] & [t Ht] & Hrest).
  rewrite (detect_step _ _ _ _ _ _ Hp Ht). destruct (Num.geb p t); by apply IH.
Qed.

(** Once detected, always detected, and the dict is not empty. *)
Lemma detect_flag cols : ∀ i acc ft detected,
  (acc.2 = true → acc.1 ≠ []) →
  detect thresholds probs i cols acc = Ret (ft, detected) →
  (acc.2 = true → detected = true) ∧ (detected = true → ft ≠ []).
Proof.
  induction cols as [|col rest IH]; intros i acc ft detected Hacc Hrun.
  - simpl in Hrun. injection Hrun as ->. done.
  - destruct (detect_step_inv _ _ _ _ _ Hrun) as (p & t & Hp & Ht).
    rewrite (detect_step _ _ _ _ _ _ Hp Ht) in Hrun.
    destruct (Num.geb p t).
    + apply IH in Hrun as [H1 H2]; [|intros _; apply dict_set_nonempty].
      split; [intros _; by apply H1|done].
    + by apply IH in Hrun.
Qed.

(** A run that detects nothing leaves the accumulator as it was. *)
Lemma detect_undetected cols : ∀ i acc ft,
  detect thresholds probs i cols acc = Ret (ft, false) → acc = (ft, false).
Proof.
  induction cols as [|col rest IH]; intros i acc ft Hrun.
  - simpl in Hrun. by injection Hrun.
  - destruct (detect_step_inv _ _ _ _ _ Hrun) as (p & t & Hp & Ht).
    rewrite (detect_step _ _ _ _ _ _ Hp Ht) in Hrun.
    destruct (Num.geb p t); [|by eapply IH].
    apply IH in Hrun. discriminate.
Qed.

(** When no mode meets its threshold the loop changes nothing. *)
Lemma detect_none cols : ∀ i acc,
  (∀ j col, cols !! j = Some col →
     ∃ p t, mode_probability probs (i + j) = Some p ∧
            thresholds !! col = Some t ∧ p < t) →
  detect thresholds probs i cols acc = Ret acc.
Proof.
  induction cols as [|col rest IH]; intros i acc Hall; [done|].
  destruct (Hall 0%nat col eq_refl) as (p & t & Hp & Ht & Hlt).
  rewrite Nat.add_0_r in Hp.
  rewrite (detect_step _ _ _ _ _ _ Hp Ht).
  apply geb_lt in Hlt. rewrite Hlt. apply IH.
  intros j c Hj. specialize (Hall (S j) c Hj).
  by rewrite <- Nat.add_succ_comm in Hall.
Qed.

(** The first mode without a threshold stops the loop with [KeyError]. *)
Lemma detect_missing pre : ∀ i acc col post,
  covered thresholds probs i pre →
  is_Some (mode_probability probs (i + length pre)) →
  thresholds !! col = None →
  detect thresholds probs i (pre ++ col :: post) acc = Raise (KeyError col).
Proof.
  induction pre as [|c pre IH]; intros i acc col post Hc [p Hp] Hmiss.
  - simpl in Hp. rewrite Nat.add_0_r in Hp. by eapply detect_step_missing.
  - apply covered_cons in Hc as ([q Hq] & [t Ht] & Hrest).
    change ((c :: pre) ++ col :: post)%list with (c :: (pre ++ col :: post))%list.
    rewrite (detect_step _ _ _ _ _ _ Hq Ht).
    simpl in Hp. rewrite Nat.add_succ_r in Hp.
    destruct (Num.geb q t); apply IH; eauto.
Qed.

(** What the loop stores under each key when the modes are distinct. *)
Lemma detect_get cols : ∀ i acc ft detected,
  NoDup cols →
  detect thresholds probs i cols acc = Ret (ft, detected) →
  ∀ col,
    (col ∉ cols → dict_get col ft = dict_get col acc.1) ∧
    (∀ j p t, cols !! j = Some col →
       mode_probability probs (i + j) = Some p →
       thresholds !! col = Some t →
       dict_get col ft
       = if Num.geb p t then Some (Num.round3 p) else dict_get col acc.1).
Proof.
  induction cols as [|c rest IH]; intros i acc ft detected Hnd Hrun col.
  - simpl in Hrun. injection Hrun as ->. split; [done|]. by intros [|?].
  - apply NoDup_cons in Hnd as [Hc Hnd].
    destruct (detect_step_inv _ _ _ _ _ Hrun) as (q & u & Hq & Hu).
    rewrite (detect_step _ _ _ _ _ _ Hq Hu) in Hrun.
    assert (∃ acc', detect thresholds probs (S i) rest acc' = Ret (ft, detected)
              ∧ (∀ k, dict_get k acc'.1
                      = if Num.geb q u
                        then (if decide (k = c) then Some (Num.round3 q)
                              else dict_get k acc.1)
                        else dict_get k acc.1)) as (acc' & Hrun' & Hacc').
    { destruct (Num.geb q u); eexists; (split; [exact Hrun|]); [|done].
      intros k. simpl. destruct (decide (k = c)) as [->|Hne].
      - apply dict_get_set_eq.
      - by apply dict_get_set_ne. }
    destruct (IH _ _ _ _ Hnd Hrun' col) as [Hout Hin]. split.
    + intros Hnotin. apply not_elem_of_cons in Hnotin as [Hne Hnotin].
      rewrite (Hout Hnotin), Hacc'. rewrite decide_False by done.
      by destruct (Num.geb q u).
    + intros [|j] p t Hj Hp Ht.
      * simpl in Hj. injection Hj as ->. rewrite Nat.add_0_r in Hp.
        rewrite Hq in Hp. injection Hp as ->. rewrite Hu in Ht. injection Ht as ->.
        rewrite (Hout Hc), Hacc'. rewrite decide_True by done.
        by destruct (Num.geb p t).
      * simpl in Hj. rewrite Nat.add_succ_r in Hp.
        rewrite (Hin j p t Hj Hp Ht). destruct (Num.geb p t); [done|].
        rewrite Hacc'. assert (col ≠ c) as Hne.
        { intros ->. apply Hc. by eapply list_elem_of_lookup_2. }
        rewrite decide_False by done. by destruct (Num.geb q u).
Qed.

(** Where each entry of the loop's dict comes from. *)
Lemma detect_elem_of cols : ∀ i acc ft detected,
  detect thresholds probs i cols acc = Ret (ft, detected) →
  ∀ col v, (col, v) ∈ ft →
    (col, v) ∈ acc.1 ∨
    ∃ j p t, cols !! j = Some col ∧ mode_probability probs (i + j) = Some p ∧
             thresholds !! col = Some t ∧ t <= p ∧ v = Num.round3 p.
Proof.
  induction cols as [|c rest IH]; intros i acc ft detected Hrun col v Hin.
  - simpl in Hrun. injection Hrun as ->. by left.
  - destruct (detect_step_inv _ _ _ _ _ Hrun) as (q & u & Hq & Hu).
    rewrite (detect_step _ _ _ _ _ _ Hq Hu) in Hrun.
    destruct (Num.geb q u) eqn:Hge.
    + destruct (IH _ _ _ _ Hrun col v Hin) as [Hacc|(j & p & t & Hj & Hp & Ht & Hle & Hv)].
      * simpl in Hacc. apply elem_of_dict_set in Hacc as [[= -> ->]|Hacc]; [|by left].
        right. exists 0%nat, q, u. rewrite Nat.add_0_r.
        apply geb_ge in Hge. done.
      * right. exists (S j), p, t. by rewrite Nat.add_succ_r.
    + destruct (IH _ _ _ _ Hrun col v Hin) as [Hacc|(j & p & t & Hj & Hp & Ht & Hle & Hv)].
      * by left.
      * right. exists (S j), p, t. by rewrite Nat.add_succ_r.
Qed.

End LoopFacts.

(** ** Running [predict_machine_failure] *)

(** The loop reads the store and leaves it alone. *)
Lemma mode_loop_run probs cols : ∀ i acc s,
  mode_loop probs i cols acc s
  = (detect (FAILURE_THRESHOLDS (globals s)) probs i cols acc, s).
Proof.
  induction cols as [|col rest IH]; intros i acc s; [done|].
  simpl. unfold mbind, M_bind, outcome_bind, lift, read.
  destruct (getindex probs i) as [channel|e]; [|done].
  destruct (getitem2 channel 0 1) as [prob|e]; [|done].
  destruct (getitem (FAILURE_THRESHOLDS (globals s)) col) as [t|e]; [|done].
  destruct (Num.geb prob t); apply IH.
Qed.

(** The whole call, branch by branch. *)
Lemma predict_run input_data s :
  predict_machine_failure input_data s
  = let g := globals s in
    let X := reindex input_data (STAGE1_FEATURES g) in
    match gate_probability g input_data with
    | Raise e => (Raise e, after_stage1 s X)
    | Ret p =>
        match lt_threshold p (STAGE1_THRESHOLD g) with
        | Raise e => (Raise e, after_stage1 s X)
        | Ret true => (Ret (mkResult 0 (Num.round3 p) None), after_stage1 s X)
        | Ret false =>
            match mode_probabilities g input_data with
            | Raise e => (Raise e, after_stage2 s X)
            | Ret probs =>
                match detect (FAILURE_THRESHOLDS g) probs 0 (FAILURE_COLS g)
                        ([], false) with
                | Raise e => (Raise e, after_stage2 s X)
                | Ret res => (Ret (attributed p res), after_stage2 s X)
                end
            end
        end
    end.
Proof.
  unfold predict_machine_failure, gate_probability, mode_probabilities,
    call_stage1, call_stage2, record_call, after_stage1, after_stage2.
  unfold mbind, M_bind, outcome_bind, lift, read, mret, M_ret. simpl.
  destruct (stage1_model (globals s) _) as [proba|e]; [|done].
  destruct (getitem2 proba 0 1) as [p|e]; [|done].
  destruct (lt_threshold p _) as [[|]|e]; [done| |done]. simpl.
  destruct (stage2_model (globals s) _) as [probs|e]; [|done].
  rewrite mode_loop_run. simpl.
  destruct (detect _ probs 0 _ _) as [[ft detected]|e]; done.
Qed.

Lemma stage2_calls_app log log' :
  stage2_calls (log ++ log') = (stage2_calls log + stage2_calls log')%nat.
Proof.
  induction log as [|[X|X] log IH]; simpl; [done|done|by rewrite IH].
Qed.

(** A call that returns a record took one of the two returning branches. *)
Lemma predict_returns input_data s r s' :
  predict_machine_failure input_data s = (Ret r, s') →
  ∃ p t,
    gate_probability (globals s) input_data = Ret p ∧
    STAGE1_THRESHOLD (globals s) = Some t ∧
    ((Num.ltb p t = true ∧ r = mkResult 0 (Num.round3 p) None) ∨
     (Num.ltb p t = false ∧
      ∃ probs res,
        mode_probabilities (globals s) input_data = Ret probs ∧
        detect (FAILURE_THRESHOLDS (globals s)) probs 0
          (FAILURE_COLS (globals s)) ([], false) = Ret res ∧
        r = attributed p res)).
Proof.
  rewrite predict_run. simpl.
  destruct (gate_probability _ _) as [p|e]; [|done].
  destruct (STAGE1_THRESHOLD (globals s)) as [t|]; [|done]. simpl.
  destruct (Num.ltb p t) eqn:Hlt.
  - intros [= <- _]. exists p, t. split; [done|]. split; [done|]. by left.
  - destruct (mode_probabilities _ _) as [probs|e]; [|done].
    destruct (detect _ _ _ _ _) as [res|e] eqn:Hdet; [|done].
    intros [= <- _]. exists p, t. split; [done|]. split; [done|]. right.
    split; [done|]. by exists probs, res.
Qed.

(** The call when the gate probability is below the gate threshold. *)
Lemma predict_below input_data s p t :
  gate_probability (globals s) input_data = Ret p →
  STAGE1_THRESHOLD (globals s) = Some t →
  (p < t)%Q →
  predict_machine_failure input_data s
  = (Ret (mkResult 0 (Num.round3 p) None),
     after_stage1 s (reindex input_data (STAGE1_FEATURES (globals s)))).
Proof.
  intros Hp Ht Hlt. apply ltb_lt in Hlt.
  rewrite predict_run. simpl. rewrite Hp, Ht. simpl. by rewrite Hlt.
Qed.

(** The call when the gate fires and Stage 2 answers. *)
Lemma predict_fires input_data s p t probs :
  gate_probability (globals s) input_data = Ret p →
  STAGE1_THRESHOLD (globals s) = Some t →
  (t <= p)%Q →
  mode_probabilities (globals s) input_data = Ret probs →
  (predict_machine_failure input_data s).1
  = res ← detect (FAILURE_THRESHOLDS (globals s)) probs 0
            (FAILURE_COLS (globals s)) ([], false);
    Ret (attributed p res).
Proof.
  intros Hp Ht Hle Hprobs. rewrite predict_run. simpl.
  rewrite Hp, Ht. simpl. apply ltb_ge in Hle. rewrite Hle, Hprobs.
  unfold mbind, outcome_bind. by destruct (detect _ _ _ _ _).
Qed.

(** ** The decision policy *)

(** C1. Whenever the Stage-1 probability is strictly below the gate
    threshold, the call returns exactly
    [{failure: 0, failure_probability: round(p, 3), failure_types: None}];
    the only classifier invocation it adds to the record is the gate's, so
    the Stage-2 classifier is not invoked. *)
Theorem gate_short_circuit (input_data : gmap string value) (s : Store) (p t : Q) :
  gate_probability (globals s) input_data = Ret p →
  STAGE1_THRESHOLD (globals s) = Some t →
  (p < t)%Q →
  predict_machine_failure input_data s
  = (Ret {| failure := 0;
            failure_probability := Num.round3 p;
            failure_types := None |},
     after_stage1 s (reindex input_data (STAGE1_FEATURES (globals s))))
  ∧ stage2_calls (calls (predict_machine_failure input_data s).2)
    = stage2_calls (calls s).
Proof.
  intros Hp Ht Hlt. rewrite (predict_below _ _ _ _ Hp Ht Hlt).
  split; [done|]. simpl. rewrite stage2_calls_app. simpl. lia.
Qed.

(** C2. Every record the call returns has [failure == 0] exactly when
    [failure_types] is [None], and [failure == 1] only with a non-empty
    [failure_types] mapping. *)
Theorem result_invariants (input_data : gmap string value) (s s' : Store)
    (r : PredictionResult) :
  predict_machine_failure input_data s = (Ret r, s') →
  (failure r = 0 ↔ failure_types r = None) ∧
  (failure r = 1 → ∃ ft, failure_types r = Some ft ∧ ft ≠ []).
Proof.
  intros Hrun.
  apply predict_returns in Hrun
    as (p & t & _ & _ & [[_ ->]|(_ & probs & [ft detected] & _ & Hdet & ->)]).
  - simpl. split; [done|]. intros [=].
  - simpl. split; [split; intros [=]|]. intros _. eexists. split; [done|].
    apply detect_flag in Hdet as [_ Hne]; [|done].
    destruct detected; [by apply Hne|apply dict_set_nonempty].
Qed.

(** C3. When the gate fires and no mode probability meets its threshold,
    [failure_types] is exactly the one-entry mapping from the fallback label
    ["RNF"] to the gate probability rounded to 3 decimals. *)
Theorem fallback_exactness (input_data : gmap string value) (s : Store)
    (p t : Q) (probs : list matrix) :
  gate_probability (globals s) input_data = Ret p →
  STAGE1_THRESHOLD (globals s) = Some t →
  (t <= p)%Q →
  mode_probabilities (globals s) input_data = Ret probs →
  (∀ i col, FAILURE_COLS (globals s) !! i = Some col →
     ∃ p_i t_i, mode_probability probs i = Some p_i ∧
                FAILURE_THRESHOLDS (globals s) !! col = Some t_i ∧
                (p_i < t_i)%Q) →
  (predict_machine_failure input_data s).1
  = Ret {| failure := 1;
           failure_probability := Num.round3 p;
           failure_types := Some [("RNF", Num.round3 p)] |}.
Proof.
  intros Hp Ht Hle Hprobs Hnone.
  rewrite (predict_fires _ _ _ _ _ Hp Ht Hle Hprobs).
  rewrite detect_none; [done|]. intros j col Hj. simpl. eauto.
Qed.

(** C5. Whenever the gate probability is at least the gate threshold,
    equality included, every record the call returns has [failure == 1] and
    [failure_probability == round(p, 3)]; and the call does return a record
    once Stage 2 answers with a channel for every mode and every mode has a
    threshold. *)
Theorem gate_triggers (input_data : gmap string value) (s : Store) (p t : Q) :
  gate_probability (globals s) input_data = Ret p →
  STAGE1_THRESHOLD (globals s) = Some t →
  (t <= p)%Q →
  (∀ r, (predict_machine_failure input_data s).1 = Ret r →
     failure r = 1 ∧ failure_probability r = Num.round3 p) ∧
  (∀ probs, mode_probabilities (globals s) input_data = Ret probs →
     covered (FAILURE_THRESHOLDS (globals s)) probs 0 (FAILURE_COLS (globals s)) →
     ∃ r, (predict_machine_failure input_data s).1 = Ret r).
Proof.
  intros Hp Ht Hle. split.
  - intros r Hr. destruct (predict_machine_failure input_data s) as [o s'] eqn:Hrun.
    simpl in Hr. subst o.
    apply predict_returns in Hrun
      as (p' & t' & Hp' & Ht' & [[Hlt ->]|(_ & probs & res & _ & _ & ->)]).
    + rewrite Hp in Hp'. injection Hp' as <-. rewrite Ht in Ht'. injection Ht' as <-.
      apply ltb_lt in Hlt. by apply Qlt_not_le in Hlt.
    + rewrite Hp in Hp'. by injection Hp' as <-.
  - intros probs Hprobs Hcov.
    rewrite (predict_fires _ _ _ _ _ Hp Ht Hle Hprobs).
    destruct (detect_total _ _ _ 0%nat ([], false) Hcov) as [res ->].
    by eexists.
Qed.

(** C4. When the gate fires, Stage 2 answers with a channel for every mode,
    the modes are distinct, each has a threshold and none is the fallback
    label, the call returns a record in which mode [FAILURE_COLS[i]] is a
    key of [failure_types] exactly when its probability is at least its own
    threshold, and a detected mode is stored with its probability rounded to
    3 decimals.  Each mode is decided on its own, so several can be present
    together. *)
Theorem per_mode_detection (input_data : gmap string value) (s : Store)
    (p t : Q) (probs : list matrix) :
  gate_probability (globals s) input_data = Ret p →
  STAGE1_THRESHOLD (globals s) = Some t →
  (t <= p)%Q →
  mode_probabilities (globals s) input_data = Ret probs →
  NoDup (FAILURE_COLS (globals s)) →
  "RNF" ∉ FAILURE_COLS (globals s) →
  covered (FAILURE_THRESHOLDS (globals s)) probs 0 (FAILURE_COLS (globals s)) →
  ∃ r ft,
    (predict_machine_failure input_data s).1 = Ret r ∧
    failure_types r = Some ft ∧
    ∀ i col p_i t_i,
      FAILURE_COLS (globals s) !! i = Some col →
      mode_probability probs i = Some p_i →
      FAILURE_THRESHOLDS (globals s) !! col = Some t_i →
      (col ∈ keys ft ↔ (t_i <= p_i)%Q) ∧
      ((t_i <= p_i)%Q → dict_get col ft = Some (Num.round3 p_i)).
Proof.
  intros Hp Ht Hle Hprobs Hnd Hrnf Hcov.
  rewrite (predict_fires _ _ _ _ _ Hp Ht Hle Hprobs).
  destruct (detect_total _ _ _ 0%nat ([], false) Hcov) as [[ft detected] Hdet].
  rewrite Hdet. simpl. eexists _, _. split; [done|]. split; [done|].
  intros i col p_i t_i Hi Hpi Hti.
  destruct (detect_get _ _ _ _ _ _ _ Hnd Hdet col) as [_ Hget].
  specialize (Hget i p_i t_i Hi Hpi Hti). simpl in Hget.
  rewrite <- dict_get_is_Some_keys. destruct detected; simpl.
  - rewrite Hget. destruct (Num.geb p_i t_i) eqn:Hge.
    + apply geb_ge in Hge. split; [by split; eauto|done].
    + apply geb_lt in Hge. split; [split|].
      * by intros [? ?].
      * intros Hle'. by apply Qlt_not_le in Hge.
      * intros Hle'. by apply Qlt_not_le in Hge.
  - apply detect_undetected in Hdet as [= <-]. simpl in Hget.
    destruct (Num.geb p_i t_i) eqn:Hge; [done|]. apply geb_lt in Hge.
    assert (col ≠ "RNF") as Hne.
    { intros ->. apply Hrnf. by eapply list_elem_of_lookup_2. }
    simpl. rewrite decide_False by done. split; [split|].
    + by intros [? ?].
    + intros Hle'. by apply Qlt_not_le in Hge.
    + intros Hle'. by apply Qlt_not_le in Hge.
Qed.

(** C6, as amended.  Loading does not look at the keys of the threshold
    mapping: the module body succeeds whenever the bundles have their
    [model], [features], [failure_thresholds] and [failure_cols] entries.  A
    mode without a threshold is met only inside an inference call: a call
    whose gate probability is below the gate threshold returns its record,
    and a call whose gate fires raises [KeyError] for the first such mode
    the loop reaches.  No default stands in for the missing threshold. *)
Theorem missing_threshold_deferred (stage1_dict : Stage1Dict)
    (stage2 : list value → outcome (list matrix)) (config : Config)
    (model : DataFrame → outcome matrix) (features : list string)
    (thresholds : gmap string Q) (pre post : list string) (col : string) :
  sd_model stage1_dict = Some model →
  sd_features stage1_dict = Some features →
  cfg_failure_thresholds config = Some thresholds →
  cfg_failure_cols config = Some (pre ++ col :: post) →
  thresholds !! col = None →
  ∃ g,
    load_module stage1_dict stage2 config = Ret g ∧
    FAILURE_THRESHOLDS g = thresholds ∧
    FAILURE_COLS g = pre ++ col :: post ∧
    ∀ (input_data : gmap string value) (log : list event) (p t : Q),
      gate_probability g input_data = Ret p →
      STAGE1_THRESHOLD g = Some t →
      ((p < t)%Q →
         (predict_machine_failure input_data (mkStore g log)).1
         = Ret (mkResult 0 (Num.round3 p) None)) ∧
      (∀ probs,
         (t <= p)%Q →
         mode_probabilities g input_data = Ret probs →
         covered thresholds probs 0 pre →
         is_Some (mode_probability probs (length pre)) →
         (predict_machine_failure input_data (mkStore g log)).1
         = Raise (KeyError col)).
Proof.
  intros Hmodel Hfeatures Hthr Hcols Hmiss.
  unfold load_module. rewrite Hmodel, Hfeatures, Hthr, Hcols. simpl.
  eexists. split; [done|]. simpl. split; [done|]. split; [done|].
  intros input_data log p t Hp Ht. split.
  - intros Hlt.
    by rewrite (predict_below input_data (mkStore _ log) p t Hp Ht Hlt).
  - intros probs Hle Hprobs Hcov Hch.
    rewrite (predict_fires input_data (mkStore _ log) p t probs Hp Ht Hle Hprobs).
    simpl. by rewrite detect_missing.
Qed.

(** C7. The frame handed to the gate has exactly the gate's feature
    vocabulary as columns, in that order; a field of the record outside the
    vocabulary does not reach it; a vocabulary field the record lacks is
    filled with [NaN], which is not zero; and the gate classifier is invoked
    on that frame whatever is missing, as is Stage 2 if it runs. *)
Theorem feature_alignment (input_data : gmap string value) (s : Store)
    (i : nat) (c extra : string) (v : value) :
  STAGE1_FEATURES (globals s) !! i = Some c →
  extra ∉ STAGE1_FEATURES (globals s) →
  let X := reindex input_data (STAGE1_FEATURES (globals s)) in
  X.*1 = STAGE1_FEATURES (globals s) ∧
  X !! i = Some (c, default NaN (input_data !! c)) ∧
  (input_data !! c = None → values X !! i = Some NaN ∧ NaN ≠ VFloat 0) ∧
  reindex (<[extra := v]> input_data) (STAGE1_FEATURES (globals s)) = X ∧
  ∃ rest,
    calls (predict_machine_failure input_data s).2
    = calls s ++ Stage1Call X :: rest ∧
    (rest = [] ∨ rest = [Stage2Call (values X)]).
Proof.
  intros Hi Hextra X. subst X. unfold reindex, values, DataFrame. split_and!.
  - rewrite <- list_fmap_compose. apply list_fmap_id.
  - by rewrite list_lookup_fmap, Hi.
  - intros Hnone. split; [|done].
    rewrite !list_lookup_fmap, Hi. simpl. by rewrite Hnone.
  - apply list_fmap_ext. intros j f Hj. f_equal.
    rewrite lookup_insert_ne; [done|]. intros ->. apply Hextra.
    by eapply list_elem_of_lookup_2.
  - rewrite predict_run. simpl. unfold after_stage1, after_stage2.
    destruct (gate_probability _ _) as [p|e]; [|by exists []; split; [|left]].
    destruct (lt_threshold _ _) as [[|]|e];
      [by exists []; split; [|left]| |by exists []; split; [|left]].
    exists [Stage2Call
              (values (reindex input_data (STAGE1_FEATURES (globals s))))].
    split; [|by right].
    destruct (mode_probabilities _ _) as [probs|e];
      [destruct (detect _ _ _ _ _)|]; simpl; by rewrite <- app_assoc.
Qed.

(** C8. Rounding happens only when the record is assembled.  For a call
    that returns a record, with classifier probabilities in [[0, 1]]: the
    gate decision is the comparison of the unrounded gate probability with
    the gate threshold; every entry of [failure_types] is either the
    fallback entry holding the rounded gate probability or a mode whose
    unrounded probability met its threshold, holding that probability
    rounded; and every probability of the record is a whole number of
    thousandths in [[0, 1]]. *)
Theorem rounding_at_assembly (input_data : gmap string value) (s s' : Store)
    (r : PredictionResult) (p t : Q) :
  predict_machine_failure input_data s = (Ret r, s') →
  gate_probability (globals s) input_data = Ret p →
  STAGE1_THRESHOLD (globals s) = Some t →
  (0 <= p <= 1)%Q →
  (∀ probs i p_i,
     mode_probabilities (globals s) input_data = Ret probs →
     mode_probability probs i = Some p_i → (0 <= p_i <= 1)%Q) →
  (failure r = 0 ↔ (p < t)%Q) ∧
  (failure r = 1 ↔ (t <= p)%Q) ∧
  failure_probability r = Num.round3 p ∧
  (∀ ft col v,
     failure_types r = Some ft → (col, v) ∈ ft →
     (col = "RNF" ∧ v = Num.round3 p) ∨
     ∃ probs i p_i t_i,
       mode_probabilities (globals s) input_data = Ret probs ∧
       FAILURE_COLS (globals s) !! i = Some col ∧
       mode_probability probs i = Some p_i ∧
       FAILURE_THRESHOLDS (globals s) !! col = Some t_i ∧
       (t_i <= p_i)%Q ∧ v = Num.round3 p_i) ∧
  (∀ v, v ∈ output_probabilities r →
     (∃ k : Z, v = (k # 1000)%Q) ∧ (0 <= v <= 1)%Q).
Proof.
  intros Hrun Hp Ht Hp01 Hmodes.
  apply predict_returns in Hrun as (p' & t' & Hp' & Ht' & Hcase).
  rewrite Hp in Hp'. injection Hp' as <-. rewrite Ht in Ht'. injection Ht' as <-.
  assert (∀ ft col v,
     failure_types r = Some ft → (col, v) ∈ ft →
     (col = "RNF" ∧ v = Num.round3 p) ∨
     ∃ probs i p_i t_i,
       mode_probabilities (globals s) input_data = Ret probs ∧
       FAILURE_COLS (globals s) !! i = Some col ∧
       mode_probability probs i = Some p_i ∧
       FAILURE_THRESHOLDS (globals s) !! col = Some t_i ∧
       (t_i <= p_i)%Q ∧ v = Num.round3 p_i) as Hentries.
  { destruct Hcase as [[_ ->]|(_ & probs & [ft0 detected] & Hprobs & Hdet & ->)];
      [done|].
    intros ft col v [= <-] Hin. simpl in Hin. destruct detected.
    - destruct (detect_elem_of _ _ _ _ _ _ _ Hdet col v Hin)
        as [Hacc|(j & p_j & t_j & Hj & Hpj & Htj & Hle & Hv)].
      + simpl in Hacc. by apply elem_of_nil in Hacc.
      + right. by exists probs, j, p_j, t_j.
    - apply detect_undetected in Hdet as [= <-]. simpl in Hin.
      apply list_elem_of_singleton in Hin as [= -> ->]. by left. }
  assert (failure_probability r = Num.round3 p) as Hfp.
  { by destruct Hcase as [[_ ->]|(_ & probs & res & _ & _ & ->)]. }
  split_and!; [| |done|done|].
  - destruct Hcase as [[Hlt ->]|(Hge & probs & res & _ & _ & ->)]; simpl.
    + apply ltb_lt in Hlt. done.
    + apply ltb_ge in Hge. split; [done|]. intros Hlt. by apply Qlt_not_le in Hlt.
  - destruct Hcase as [[Hlt ->]|(Hge & probs & res & _ & _ & ->)]; simpl.
    + apply ltb_lt in Hlt. split; [done|]. intros Hle. by apply Qlt_not_le in Hlt.
    + apply ltb_ge in Hge. done.
  - intros v Hv. unfold output_probabilities in Hv.
    assert (∃ q, v = Num.round3 q ∧ (0 <= q <= 1)%Q) as (q & -> & Hq).
    { apply elem_of_cons in Hv as [->|Hv]; [by exists p; rewrite Hfp|].
      destruct (failure_types r) as [ft|] eqn:Hft; simpl in Hv;
        [|by apply elem_of_nil in Hv].
      apply list_elem_of_fmap in Hv as ([col w] & -> & Hin). simpl.
      destruct (Hentries ft col w eq_refl Hin)
        as [[_ ->]|(probs & i & p_i & t_i & Hprobs & _ & Hpi & _ & _ & ->)].
      - by exists p.
      - exists p_i. split; [done|]. by eapply Hmodes. }
    split; [apply round3_thousandths|by apply round3_unit_interval].
Qed.

(** C10. Whatever the input [X], [Predictor.predict] and
    [Predictor.predict_proba] raise [ValueError] when [self.model] is
    [None], and [predict_proba] raises [AttributeError] when the model has
    no [predict_proba]; none of these calls returns a prediction. *)
Theorem predictor_guards (path : option string) (X : matrix)
    (fitted : matrix → outcome (list Z)) :
  PredictPy.predict (PredictPy.mkPredictor None path) X
  = (Raise (ValueError "No model loaded. Load or train a model first."), []) ∧
  PredictPy.predict_proba (PredictPy.mkPredictor None path) X
  = (Raise (ValueError "No model loaded. Load or train a model first."), []) ∧
  PredictPy.predict_proba
    (PredictPy.mkPredictor (Some (PredictPy.mkEstimator fitted None)) path) X
  = (Raise (AttributeError "Model does not support probability predictions."),
     []).
Proof. done. Qed.

(** ** The properties at concrete artifacts *)

Section Witnesses.
Local Open Scope Q_scope.

Lemma demo_covered (a b : Q) :
  covered Demo.thresholds_AB ((λ q, [[1 - q; q]]) <$> [a; b]) 0 ["A"; "B"].
Proof.
  intros [|[|j]] col Hj; simpl in Hj; [| |done];
    injection Hj as <-; split; by eexists.
Qed.

Lemma gate_short_circuit_witness :
  predict_machine_failure Demo.record Demo.healthy
  = (Ret {| failure := 0;
            failure_probability := Num.round3 (30 # 100);
            failure_types := None |},
     after_stage1 Demo.healthy
       (reindex Demo.record (STAGE1_FEATURES (globals Demo.healthy))))
  ∧ stage2_calls (calls (predict_machine_failure Demo.record Demo.healthy).2)
    = stage2_calls (calls Demo.healthy).
Proof.
  apply (gate_short_circuit Demo.record Demo.healthy (30 # 100) (5 # 10));
    reflexivity.
Defined.

Lemma result_invariants_witness :
  (failure (attributed (80 # 100) ([("A", 900 # 1000); ("B", 600 # 1000)], true)) = 0%Z
   ↔ failure_types (attributed (80 # 100) ([("A", 900 # 1000); ("B", 600 # 1000)], true))
     = None) ∧
  (failure (attributed (80 # 100) ([("A", 900 # 1000); ("B", 600 # 1000)], true)) = 1%Z →
   ∃ ft,
     failure_types (attributed (80 # 100) ([("A", 900 # 1000); ("B", 600 # 1000)], true))
     = Some ft ∧ ft ≠ []).
Proof.
  apply (result_invariants Demo.record Demo.failing
           (after_stage2 Demo.failing (reindex Demo.record Demo.features))).
  vm_compute. reflexivity.
Defined.

Lemma fallback_exactness_witness :
  (predict_machine_failure Demo.record Demo.unclassified).1
  = Ret {| failure := 1;
           failure_probability := Num.round3 (60 # 100);
           failure_types := Some [("RNF", Num.round3 (60 # 100))] |}.
Proof.
  apply (fallback_exactness Demo.record Demo.unclassified (60 # 100) (5 # 10)
           ((λ q, [[1 - q; q]]) <$> [10 # 100; 20 # 100]));
    [reflexivity|reflexivity|by vm_compute|reflexivity|].
  intros [|[|i]] col Hi; simpl in Hi; [| |done]; injection Hi as <-.
  - exists (10 # 100), (7 # 10). split; [done|]. split; [by vm_compute|done].
  - exists (20 # 100), (5 # 10). split; [done|]. split; [by vm_compute|done].
Defined.

Lemma per_mode_detection_witness :
  ∃ r ft,
    (predict_machine_failure Demo.record Demo.failing).1 = Ret r ∧
    failure_types r = Some ft ∧
    ∀ i col p_i t_i,
      FAILURE_COLS (globals Demo.failing) !! i = Some col →
      mode_probability ((λ q, [[1 - q; q]]) <$> [90 # 100; 60 # 100]) i = Some p_i →
      FAILURE_THRESHOLDS (globals Demo.failing) !! col = Some t_i →
      (col ∈ keys ft ↔ t_i <= p_i) ∧
      (t_i <= p_i → dict_get col ft = Some (Num.round3 p_i)).
Proof.
  apply (per_mode_detection Demo.record Demo.failing (80 # 100) (5 # 10)
           ((λ q, [[1 - q; q]]) <$> [90 # 100; 60 # 100]));
    [reflexivity|reflexivity|by vm_compute|reflexivity| | |].
  - apply (bool_decide_unpack _). vm_compute. exact I.
  - apply (bool_decide_unpack _). vm_compute. exact I.
  - apply demo_covered.
Defined.

Lemma gate_triggers_witness :
  (∀ r, (predict_machine_failure Demo.record Demo.at_threshold).1 = Ret r →
     failure r = 1%Z ∧ failure_probability r = Num.round3 (50 # 100)) ∧
  (∀ probs, mode_probabilities (globals Demo.at_threshold) Demo.record = Ret probs →
     covered (FAILURE_THRESHOLDS (globals Demo.at_threshold)) probs 0
       (FAILURE_COLS (globals Demo.at_threshold)) →
     ∃ r, (predict_machine_failure Demo.record Demo.at_threshold).1 = Ret r).
Proof.
  apply (gate_triggers Demo.record Demo.at_threshold (50 # 100) (5 # 10));
    [reflexivity|reflexivity|by vm_compute].
Defined.

(** C6, as the claim states it, fails: with mode B in the vocabulary and no
    threshold for it, loading returns the module's globals without error; an
    inference call below the gate threshold then returns its record, and
    the first call whose gate fires raises [KeyError] for B. *)
Lemma missing_threshold_passes_load :
  "B" ∈ ["A"; "B"] ∧
  Demo.thresholds_A !! "B" = None ∧
  load_module (Demo.stage1_dict (80 # 100)) (Demo.modes [90 # 100; 60 # 100])
    Demo.config_missing
  = Ret (Demo.G_missing (80 # 100) [90 # 100; 60 # 100]) ∧
  (predict_machine_failure Demo.record (Demo.store_missing (30 # 100))).1
  = Ret (mkResult 0 (300 # 1000) None) ∧
  (predict_machine_failure Demo.record (Demo.store_missing (80 # 100))).1
  = Raise (KeyError "B").
Proof.
  split_and!.
  - apply (bool_decide_unpack _). vm_compute. exact I.
  - vm_compute. reflexivity.
  - reflexivity.
  - vm_compute. reflexivity.
  - vm_compute. reflexivity.
Qed.

Lemma missing_threshold_deferred_witness :
  ∃ g,
    load_module (Demo.stage1_dict (80 # 100)) (Demo.modes [90 # 100; 60 # 100])
      Demo.config_missing = Ret g ∧
    FAILURE_THRESHOLDS g = Demo.thresholds_A ∧
    FAILURE_COLS g = ["A"] ++ "B" :: [] ∧
    ∀ (input_data : gmap string value) (log : list event) (p t : Q),
      gate_probability g input_data = Ret p →
      STAGE1_THRESHOLD g = Some t →
      (p < t →
         (predict_machine_failure input_data (mkStore g log)).1
         = Ret (mkResult 0 (Num.round3 p) None)) ∧
      (∀ probs,
         t <= p →
         mode_probabilities g input_data = Ret probs →
         covered Demo.thresholds_A probs 0 ["A"] →
         is_Some (mode_probability probs (length ["A"])) →
         (predict_machine_failure input_data (mkStore g log)).1
         = Raise (KeyError "B")).
Proof.
  apply (missing_threshold_deferred (Demo.stage1_dict (80 # 100))
           (Demo.modes [90 # 100; 60 # 100]) Demo.config_missing
           (Demo.gate (80 # 100)) Demo.features Demo.thresholds_A ["A"] [] "B");
    [reflexivity|reflexivity|reflexivity|reflexivity|].
  vm_compute. reflexivity.
Defined.

Lemma feature_alignment_witness :
  let X := reindex Demo.record (STAGE1_FEATURES (globals Demo.healthy)) in
  X.*1 = STAGE1_FEATURES (globals Demo.healthy) ∧
  X !! 4%nat = Some ("Tool_wear", default NaN (Demo.record !! "Tool_wear")) ∧
  (Demo.record !! "Tool_wear" = None →
     values X !! 4%nat = Some NaN ∧ NaN ≠ VFloat 0) ∧
  reindex (<["vehicle_name" := VStr "van"]> Demo.record)
    (STAGE1_FEATURES (globals Demo.healthy)) = X ∧
  ∃ rest,
    calls (predict_machine_failure Demo.record Demo.healthy).2
    = calls Demo.healthy ++ Stage1Call X :: rest ∧
    (rest = [] ∨ rest = [Stage2Call (values X)]).
Proof.
  apply (feature_alignment Demo.record Demo.healthy 4 "Tool_wear" "vehicle_name"
           (VStr "van")).
  - reflexivity.
  - apply (bool_decide_unpack _). vm_compute. exact I.
Defined.

Lemma rounding_at_assembly_witness :
  let r := attributed (80 # 100) ([("A", 900 # 1000); ("B", 600 # 1000)], true) in
  (failure r = 0%Z ↔ 80 # 100 < 5 # 10) ∧
  (failure r = 1%Z ↔ 5 # 10 <= 80 # 100) ∧
  failure_probability r = Num.round3 (80 # 100) ∧
  (∀ ft col v,
     failure_types r = Some ft → (col, v) ∈ ft →
     (col = "RNF" ∧ v = Num.round3 (80 # 100)) ∨
     ∃ probs i p_i t_i,
       mode_probabilities (globals Demo.failing) Demo.record = Ret probs ∧
       FAILURE_COLS (globals Demo.failing) !! i = Some col ∧
       mode_probability probs i = Some p_i ∧
       FAILURE_THRESHOLDS (globals Demo.failing) !! col = Some t_i ∧
       t_i <= p_i ∧ v = Num.round3 p_i) ∧
  (∀ v, v ∈ output_probabilities r →
     (∃ k : Z, v = k # 1000) ∧ 0 <= v <= 1).
Proof.
  apply (rounding_at_assembly Demo.record Demo.failing
           (after_stage2 Demo.failing (reindex Demo.record Demo.features))).
  - vm_compute. reflexivity.
  - reflexivity.
  - reflexivity.
  - by vm_compute.
  - intros probs i p_i [= <-] Hi.
    destruct i as [|[|i]]; simpl in Hi; [| |done]; injection Hi as <-;
      by vm_compute.
Defined.

End Witnesses.

(** ** More on [predict_machine_failure] *)

Section PredictorFacts.
Local Open Scope Q_scope.

Lemma stage1_calls_app log log' :
  stage1_calls (log ++ log') = (stage1_calls log + stage1_calls log')%nat.
Proof.
  induction log as [|[X|X] log IH]; simpl; [done|by rewrite IH|done].
Qed.

Lemma reindex_agree (input_data input_data' : gmap string value)
    (columns : list string) :
  (∀ c, c ∈ columns → input_data !! c = input_data' !! c) →
  reindex input_data columns = reindex input_data' columns.
Proof.
  intros Hagree. unfold reindex. apply list_fmap_ext. intros i c Hi.
  rewrite (Hagree c); [done|]. by eapply list_elem_of_lookup_2.
Qed.

Lemma predict_agree (input_data input_data' : gmap string value) (s : Store) :
  (∀ c, c ∈ STAGE1_FEATURES (globals s) → input_data !! c = input_data' !! c) →
  predict_machine_failure input_data s = predict_machine_failure input_data' s.
Proof.
  intros Hagree. rewrite !predict_run. simpl.
  unfold gate_probability, mode_probabilities.
  by rewrite (reindex_agree _ _ _ Hagree).
Qed.

(** Only the fields named by the gate's feature vocabulary matter: two
    records that agree on them give the same outcome and the same store. *)
Theorem only_vocabulary_fields_matter (input_data input_data' : gmap string value)
    (s : Store) :
  (∀ c, c ∈ STAGE1_FEATURES (globals s) → input_data !! c = input_data' !! c) →
  predict_machine_failure input_data s = predict_machine_failure input_data' s.
Proof. apply predict_agree. Qed.

(** An exception raised by the gate classifier leaves the call unchanged,
    and Stage 2 is not consulted. *)
Theorem gate_exception_propagates (input_data : gmap string value) (s : Store)
    (e : exn) :
  stage1_model (globals s) (reindex input_data (STAGE1_FEATURES (globals s)))
  = Raise e →
  predict_machine_failure input_data s
  = (Raise e, after_stage1 s (reindex input_data (STAGE1_FEATURES (globals s)))).
Proof.
  intros He. rewrite predict_run. simpl. unfold gate_probability.
  by rewrite He.
Qed.

(** An exception raised by the Stage-2 classifier leaves the call unchanged;
    no partial record is returned. *)
Theorem mode_exception_propagates (input_data : gmap string value) (s : Store)
    (p t : Q) (e : exn) :
  gate_probability (globals s) input_data = Ret p →
  STAGE1_THRESHOLD (globals s) = Some t →
  t <= p →
  mode_probabilities (globals s) input_data = Raise e →
  predict_machine_failure input_data s
  = (Raise e, after_stage2 s (reindex input_data (STAGE1_FEATURES (globals s)))).
Proof.
  intros Hp Ht Hle He. rewrite predict_run. simpl. rewrite Hp, Ht. simpl.
  apply ltb_ge in Hle. by rewrite Hle, He.
Qed.

(** The store a call leaves behind: the gate was consulted, and Stage 2 as
    well exactly when the gate fired. *)
Lemma predict_store (input_data : gmap string value) (s : Store) (p t : Q) :
  gate_probability (globals s) input_data = Ret p →
  STAGE1_THRESHOLD (globals s) = Some t →
  (predict_machine_failure input_data s).2
  = if Num.ltb p t
    then after_stage1 s (reindex input_data (STAGE1_FEATURES (globals s)))
    else after_stage2 s (reindex input_data (STAGE1_FEATURES (globals s))).
Proof.
  intros Hp Ht. rewrite predict_run. simpl. rewrite Hp, Ht. simpl.
  destruct (Num.ltb p t); [done|].
  destruct (mode_probabilities _ _) as [probs|e]; [|done].
  by destruct (detect _ _ _ _ _).
Qed.

(** Every call consults the gate exactly once; when the gate fires, Stage 2
    is consulted exactly once, on the same row, whatever the call's
    outcome. *)
Theorem classifier_calls (input_data : gmap string value) (s : Store) (p t : Q) :
  gate_probability (globals s) input_data = Ret p →
  STAGE1_THRESHOLD (globals s) = Some t →
  stage1_calls (calls (predict_machine_failure input_data s).2)
  = S (stage1_calls (calls s)) ∧
  (t <= p →
     calls (predict_machine_failure input_data s).2
     = calls s ++
       [Stage1Call (reindex input_data (STAGE1_FEATURES (globals s)));
        Stage2Call (values (reindex input_data (STAGE1_FEATURES (globals s))))] ∧
     stage2_calls (calls (predict_machine_failure input_data s).2)
     = S (stage2_calls (calls s))).
Proof.
  intros Hp Ht. rewrite (predict_store _ _ _ _ Hp Ht).
  destruct (Num.ltb p t) eqn:Hlt; simpl.
  - rewrite stage1_calls_app. simpl. split; [lia|].
    intros Hle. apply ltb_lt in Hlt. by apply Qlt_not_le in Hlt.
  - rewrite <- app_assoc. simpl. rewrite stage1_calls_app. simpl.
    split; [lia|]. intros _. split; [done|].
    rewrite stage2_calls_app. simpl. lia.
Qed.

(** *** The loop, once more *)

Lemma detect_step_no_channel thresholds probs i col rest acc :
  mode_probability probs i = None →
  detect thresholds probs i (col :: rest) acc = Raise IndexError.
Proof.
  unfold mode_probability. intros Hp. simpl.
  unfold getindex, getitem2, mbind, outcome_bind.
  destruct (probs !! i) as [channel|]; simpl in *; [|done].
  destruct (channel !! 0%nat) as [row|]; simpl in *; [|done].
  by rewrite Hp.
Qed.

(** The first mode without a usable channel stops the loop with
    [IndexError], before its threshold is looked up. *)
Lemma detect_no_channel thresholds probs pre : ∀ i acc col post,
  covered thresholds probs i pre →
  mode_probability probs (i + length pre) = None →
  detect thresholds probs i (pre ++ col :: post) acc = Raise IndexError.
Proof.
  induction pre as [|c pre IH]; intros i acc col post Hc Hp.
  - simpl in Hp. rewrite Nat.add_0_r in Hp. by apply detect_step_no_channel.
  - apply covered_cons in Hc as ([q Hq] & [t Ht] & Hrest).
    change ((c :: pre) ++ col :: post) with (c :: (pre ++ col :: post)).
    rewrite (detect_step _ _ _ _ _ _ _ _ Hq Ht).
    simpl in Hp. rewrite Nat.add_succ_r in Hp.
    destruct (Num.geb q t); by apply IH.
Qed.

(** Channels beyond the vocabulary are never read. *)
Lemma detect_surplus thresholds probs surplus cols : ∀ i acc,
  (i + length cols <= length probs)%nat →
  detect thresholds (probs ++ surplus) i cols acc
  = detect thresholds probs i cols acc.
Proof.
  induction cols as [|col rest IH]; intros i acc Hlen; [done|].
  simpl in *. unfold getindex.
  rewrite lookup_app_l by lia.
  destruct (probs !! i) as [channel|]; [|done]. simpl.
  unfold mbind, outcome_bind.
  destruct (getitem2 channel 0 1) as [prob|e]; [|done].
  destruct (getitem thresholds col) as [t|e]; [|done].
  destruct (Num.geb prob t); apply IH; lia.
Qed.

Lemma dict_set_fresh {V} (k : string) (v : V) (d : dict V) :
  k ∉ keys d → dict_set k v d = d ++ [(k, v)].
Proof.
  unfold keys. induction d as [|[k' w] d IH]; simpl; [done|].
  intros [Hne Hnotin]%not_elem_of_cons.
  destruct (decide (k = k')); [done|]. by rewrite IH.
Qed.

Lemma keys_dict_set {V} (k : string) (v : V) (d : dict V) :
  keys (dict_set k v d) = if decide (k ∈ keys d) then keys d else keys d ++ [k].
Proof.
  unfold keys. induction d as [|[k' w] d IH].
  - destruct (decide (k ∈ ([] : dict V).*1)) as [Hin|_]; [|done].
    by apply elem_of_nil in Hin.
  - change (((k', w) :: d).*1) with (k' :: d.*1).
    change (dict_set k v ((k', w) :: d))
      with (if decide (k = k') then (k, v) :: d else (k', w) :: dict_set k v d).
    destruct (decide (k = k')) as [->|Hne].
    + destruct (decide (k' ∈ k' :: d.*1)) as [_|Hnotin]; [done|].
      exfalso. apply Hnotin. by apply elem_of_cons; left.
    + change (((k', w) :: dict_set k v d).*1) with (k' :: (dict_set k v d).*1).
      rewrite IH.
      destruct (decide (k ∈ d.*1)) as [Hin|Hnotin];
        destruct (decide (k ∈ k' :: d.*1)) as [Hin'|Hnotin']; try done.
      * exfalso. apply Hnotin'. by apply elem_of_cons; right.
      * apply elem_of_cons in Hin' as [?|?]; done.
Qed.

Lemma dict_set_keys_NoDup {V} (k : string) (v : V) (d : dict V) :
  NoDup (keys d) → NoDup (keys (dict_set k v d)).
Proof.
  intros Hnd. rewrite keys_dict_set. case_decide; [done|].
  apply NoDup_app. split; [done|]. split.
  - intros x Hx ->%list_elem_of_singleton. done.
  - apply NoDup_singleton.
Qed.

Lemma dict_set_length {V} (k : string) (v : V) (d : dict V) :
  (length (dict_set k v d) <= S (length d))%nat.
Proof.
  induction d as [|[k' w] d IH]; simpl; [lia|].
  case_decide; simpl; lia.
Qed.

(** The loop keeps the keys distinct and adds at most one entry per mode. *)
Lemma detect_mapping thresholds probs cols : ∀ i acc ft detected,
  NoDup (keys acc.1) →
  detect thresholds probs i cols acc = Ret (ft, detected) →
  NoDup (keys ft) ∧ (length ft <= length acc.1 + length cols)%nat.
Proof.
  induction cols as [|c rest IH]; intros i acc ft detected Hnd Hrun.
  - simpl in Hrun. injection Hrun as ->. simpl. split; [done|lia].
  - destruct (detect_step_inv _ _ _ _ _ _ _ Hrun) as (q & u & Hq & Hu).
    rewrite (detect_step _ _ _ _ _ _ _ _ Hq Hu) in Hrun.
    destruct (Num.geb q u).
    + apply IH in Hrun as [Hk Hl]; [|by apply dict_set_keys_NoDup].
      split; [done|]. simpl in *.
      pose proof (dict_set_length c (Num.round3 q) acc.1). lia.
    + apply IH in Hrun as [Hk Hl]; [|done]. split; [done|]. simpl. lia.
Qed.

(** With distinct modes, the loop appends the modes that meet their
    threshold, in vocabulary order. *)
Lemma detect_reported thresholds probs cols : ∀ i acc ft detected,
  NoDup cols →
  (∀ c, c ∈ cols → c ∉ keys acc.1) →
  detect thresholds probs i cols acc = Ret (ft, detected) →
  ft = acc.1 ++ reported thresholds probs i cols.
Proof.
  induction cols as [|c rest IH]; intros i acc ft detected Hnd Hfresh Hrun.
  - simpl in Hrun. injection Hrun as ->. simpl. by rewrite app_nil_r.
  - apply NoDup_cons in Hnd as [Hc Hnd].
    destruct (detect_step_inv _ _ _ _ _ _ _ Hrun) as (q & u & Hq & Hu).
    rewrite (detect_step _ _ _ _ _ _ _ _ Hq Hu) in Hrun.
    simpl. rewrite Hq, Hu. destruct (Num.geb q u).
    + apply IH in Hrun; [|done|].
      * rewrite Hrun. simpl. rewrite dict_set_fresh.
        -- by rewrite <- app_assoc.
        -- apply Hfresh. by apply elem_of_cons; left.
      * intros c' Hc'. simpl. rewrite keys_dict_set.
        rewrite decide_False by (apply Hfresh; by apply elem_of_cons; left).
        intros [Hin| ->%list_elem_of_singleton]%elem_of_app; [|done].
        revert Hin. apply Hfresh. by apply elem_of_cons; right.
    + apply IH in Hrun; [done..|].
      intros c' Hc'. apply Hfresh. by apply elem_of_cons; right.
Qed.

(** *** Edge behaviour of the call *)

(** When Stage 2 answers with too few channels (or a channel without a
    positive-class column), the call raises [IndexError] at the first mode
    that has none, whether or not that mode has a threshold. *)
Theorem too_few_channels (input_data : gmap string value) (s : Store)
    (p t : Q) (probs : list matrix) (pre post : list string) (col : string) :
  gate_probability (globals s) input_data = Ret p →
  STAGE1_THRESHOLD (globals s) = Some t →
  t <= p →
  mode_probabilities (globals s) input_data = Ret probs →
  FAILURE_COLS (globals s) = pre ++ col :: post →
  covered (FAILURE_THRESHOLDS (globals s)) probs 0 pre →
  mode_probability probs (length pre) = None →
  (predict_machine_failure input_data s).1 = Raise IndexError.
Proof.
  intros Hp Ht Hle Hprobs Hcols Hcov Hnone.
  rewrite (predict_fires _ _ _ _ _ Hp Ht Hle Hprobs), Hcols.
  by rewrite detect_no_channel.
Qed.

(** Channels that Stage 2 returns beyond the mode vocabulary do not change
    the outcome. *)
Theorem surplus_channels_ignored (input_data : gmap string value)
    (s s' : Store) (p t : Q) (probs surplus : list matrix) :
  stage1_model (globals s') = stage1_model (globals s) →
  STAGE1_THRESHOLD (globals s') = STAGE1_THRESHOLD (globals s) →
  STAGE1_FEATURES (globals s') = STAGE1_FEATURES (globals s) →
  FAILURE_THRESHOLDS (globals s') = FAILURE_THRESHOLDS (globals s) →
  FAILURE_COLS (globals s') = FAILURE_COLS (globals s) →
  gate_probability (globals s) input_data = Ret p →
  STAGE1_THRESHOLD (globals s) = Some t →
  t <= p →
  mode_probabilities (globals s) input_data = Ret probs →
  mode_probabilities (globals s') input_data = Ret (probs ++ surplus) →
  (length (FAILURE_COLS (globals s)) <= length probs)%nat →
  (predict_machine_failure input_data s').1
  = (predict_machine_failure input_data s).1.
Proof.
  intros H1 Hthr Hfeat Hths Hcols Hp Ht Hle Hprobs Hprobs' Hlen.
  assert (gate_probability (globals s') input_data = Ret p) as Hp'.
  { unfold gate_probability in *. by rewrite H1, Hfeat. }
  rewrite Ht in Hthr.
  rewrite (predict_fires _ _ _ _ _ Hp' Hthr Hle Hprobs').
  rewrite (predict_fires _ _ _ _ _ Hp Ht Hle Hprobs).
  rewrite Hths, Hcols. by rewrite detect_surplus.
Qed.

(** With distinct modes, the returned [failure_types] lists exactly the
    modes that meet their threshold, in the order of [FAILURE_COLS], each
    with its rounded probability; it is the one fallback entry when there is
    none. *)
Theorem failure_types_in_vocabulary_order (input_data : gmap string value)
    (s : Store) (p t : Q) (probs : list matrix) (r : PredictionResult) :
  gate_probability (globals s) input_data = Ret p →
  STAGE1_THRESHOLD (globals s) = Some t →
  t <= p →
  mode_probabilities (globals s) input_data = Ret probs →
  NoDup (FAILURE_COLS (globals s)) →
  (predict_machine_failure input_data s).1 = Ret r →
  failure_types r
  = Some (match reported (FAILURE_THRESHOLDS (globals s)) probs 0
                  (FAILURE_COLS (globals s)) with
          | [] => [("RNF", Num.round3 p)]
          | modes => modes
          end).
Proof.
  intros Hp Ht Hle Hprobs Hnd.
  rewrite (predict_fires _ _ _ _ _ Hp Ht Hle Hprobs).
  destruct (detect _ _ _ _ _) as [[ft detected]|e] eqn:Hdet; [|done].
  intros [= <-]. simpl.
  pose proof (detect_reported _ _ _ 0%nat ([], false) ft detected Hnd
                (λ c _, not_elem_of_nil c) Hdet) as Hft.
  simpl in Hft. rewrite <- Hft. destruct detected.
  - apply detect_flag in Hdet as [_ Hne]; [|done].
    specialize (Hne eq_refl). by destruct ft.
  - by apply detect_undetected in Hdet as [= <-].
Qed.

(** Whatever the vocabulary, the returned [failure_types] has distinct
    keys, at least one entry and at most one entry per mode. *)
Theorem failure_types_is_mapping (input_data : gmap string value)
    (s s' : Store) (r : PredictionResult) (ft : dict Q) :
  predict_machine_failure input_data s = (Ret r, s') →
  failure_types r = Some ft →
  NoDup (keys ft) ∧
  (1 <= length ft <= Nat.max 1 (length (FAILURE_COLS (globals s))))%nat.
Proof.
  intros Hrun Hft.
  apply predict_returns in Hrun
    as (p & t & _ & _ & [[_ ->]|(_ & probs & [ft0 detected] & _ & Hdet & ->)]);
    [done|].
  injection Hft as <-. simpl.
  destruct (detect_mapping _ _ _ 0%nat ([], false) ft0 detected
              (NoDup_nil_2 : NoDup (keys ([] : dict Q))) Hdet) as [Hk Hl].
  destruct detected.
  - apply detect_flag in Hdet as [_ Hne]; [|done]. specialize (Hne eq_refl).
    split; [done|]. simpl in Hl. destruct ft0; [done|]. simpl in *. lia.
  - apply detect_undetected in Hdet as [= <-]. simpl. split; [|lia].
    apply NoDup_singleton.
Qed.

(** *** Loading and the gate threshold *)

(** What a successful load has bound. *)
Lemma load_module_returns stage1_dict stage2 config g :
  load_module stage1_dict stage2 config = Ret g →
  ∃ model features thresholds cols,
    sd_model stage1_dict = Some model ∧
    sd_features stage1_dict = Some features ∧
    cfg_failure_thresholds config = Some thresholds ∧
    cfg_failure_cols config = Some cols ∧
    g = mkGlobals model
          (match sd_threshold stage1_dict with
           | Some t => Some t
           | None => cfg_stage1_threshold config
           end)
          features stage2 thresholds cols.
Proof.
  unfold load_module.
  destruct (sd_model stage1_dict) as [model|]; [|done].
  destruct (sd_features stage1_dict) as [features|]; [|done].
  destruct (cfg_failure_thresholds config) as [thresholds|]; [|done].
  destruct (cfg_failure_cols config) as [cols|]; [|done].
  intros [= <-]. by exists model, features, thresholds, cols.
Qed.

(** The gate threshold of the gate bundle wins over the one of the shared
    configuration, which is used only when the bundle has none: the
    decision of every call on the loaded module follows that choice. *)
Theorem gate_threshold_precedence (stage1_dict : Stage1Dict)
    (stage2 : list value → outcome (list matrix)) (config : Config)
    (g : Globals) (input_data : gmap string value) (log : list event)
    (p : Q) (r : PredictionResult) :
  load_module stage1_dict stage2 config = Ret g →
  gate_probability g input_data = Ret p →
  (predict_machine_failure input_data (mkStore g log)).1 = Ret r →
  (∀ t, sd_threshold stage1_dict = Some t → (failure r = 0%Z ↔ p < t)) ∧
  (∀ t, sd_threshold stage1_dict = None →
        cfg_stage1_threshold config = Some t → (failure r = 0%Z ↔ p < t)).
Proof.
  intros Hload Hp Hr.
  apply load_module_returns in Hload as (m & f & th & cols & _ & _ & _ & _ & ->).
  destruct (predict_machine_failure input_data _) as [o s'] eqn:Hrun.
  simpl in Hr. subst o.
  apply predict_returns in Hrun as (p' & t' & Hp' & Ht' & Hcase).
  simpl in Hp', Ht'. rewrite Hp in Hp'. injection Hp' as <-.
  assert (failure r = 0%Z ↔ p < t') as Hdec.
  { destruct Hcase as [[Hlt ->]|(Hge & probs & res & _ & _ & ->)]; simpl.
    - apply ltb_lt in Hlt. done.
    - apply ltb_ge in Hge. split; [done|]. intros Hlt. by apply Qlt_not_le in Hlt. }
  split.
  - intros t Hsd. rewrite Hsd in Ht'. by injection Ht' as <-.
  - intros t Hsd Hcfg. rewrite Hsd, Hcfg in Ht'. by injection Ht' as <-.
Qed.

(** Bundles that carry no gate threshold at all still load; every call
    whose gate answers then raises [TypeError] after consulting the gate.
    No default threshold stands in. *)
Theorem no_default_gate_threshold (stage1_dict : Stage1Dict)
    (stage2 : list value → outcome (list matrix)) (config : Config)
    (model : DataFrame → outcome matrix) (features : list string)
    (thresholds : gmap string Q) (cols : list string) :
  sd_model stage1_dict = Some model →
  sd_features stage1_dict = Some features →
  cfg_failure_thresholds config = Some thresholds →
  cfg_failure_cols config = Some cols →
  sd_threshold stage1_dict = None →
  cfg_stage1_threshold config = None →
  ∃ g,
    load_module stage1_dict stage2 config = Ret g ∧
    ∀ (input_data : gmap string value) (log : list event) (p : Q),
      gate_probability g input_data = Ret p →
      predict_machine_failure input_data (mkStore g log)
      = (Raise TypeError,
         after_stage1 (mkStore g log) (reindex input_data features)).
Proof.
  intros Hm Hf Hth Hcols Hsd Hcfg. unfold load_module.
  rewrite Hm, Hf, Hth, Hcols, Hsd, Hcfg. simpl. eexists. split; [done|].
  intros input_data log p Hp. rewrite predict_run. simpl. by rewrite Hp.
Qed.

(** *** Rounding against the thresholds *)

(** A reported probability can sit on the other side of its threshold only
    by rounding, so by at most half a thousandth: with [failure == 1] the
    reported gate probability is at least the gate threshold less 0.0005,
    with [failure == 0] it is below the threshold plus 0.0005, and a
    reported mode is at least its own threshold less 0.0005. *)
Theorem reported_probability_margin (input_data : gmap string value)
    (s s' : Store) (r : PredictionResult) (p t : Q) :
  predict_machine_failure input_data s = (Ret r, s') →
  gate_probability (globals s) input_data = Ret p →
  STAGE1_THRESHOLD (globals s) = Some t →
  (failure r = 1%Z → t - (1 # 2000) <= failure_probability r) ∧
  (failure r = 0%Z → failure_probability r < t + (1 # 2000)) ∧
  (∀ ft col v t_i,
     failure_types r = Some ft → (col, v) ∈ ft → col ≠ "RNF" →
     FAILURE_THRESHOLDS (globals s) !! col = Some t_i →
     t_i - (1 # 2000) <= v).
Proof.
  intros Hrun Hp Ht.
  apply predict_returns in Hrun as (p' & t' & Hp' & Ht' & Hcase).
  rewrite Hp in Hp'. injection Hp' as <-. rewrite Ht in Ht'. injection Ht' as <-.
  destruct (round3_close p) as [Hup Hdown].
  destruct Hcase as [[Hlt ->]|(Hge & probs & [ft0 detected] & _ & Hdet & ->)];
    simpl.
  - apply ltb_lt in Hlt. split; [done|]. split; [intros _; lra|]. done.
  - apply ltb_ge in Hge. split; [intros _; lra|]. split; [done|].
    intros ft col v t_i [= <-] Hin Hne Hti. destruct detected.
    + destruct (detect_elem_of _ _ _ _ _ _ _ Hdet col v Hin)
        as [Hacc|(j & p_j & t_j & _ & _ & Htj & Hle & ->)].
      * simpl in Hacc. by apply elem_of_nil in Hacc.
      * rewrite Hti in Htj. injection Htj as <-.
        destruct (round3_close p_j) as [_ Hd]. lra.
    + apply detect_undetected in Hdet as [= <-]. simpl in Hin.
      by apply list_elem_of_singleton in Hin as [= -> ->].
Qed.

End PredictorFacts.

(** ** Requests, the report and the endpoints *)

Section EndpointFacts.
Local Open Scope Q_scope.
Variable strip : string → string.
Variable str : exn → string.

(** A request dict holds exactly the fields of its schema. *)
Lemma backend_dict_lookup (data : BackendSchema.MachineInput) (c : string) :
  c ∈ BackendSchema.field_names ↔ is_Some (BackendSchema.dict data !! c).
Proof.
  split.
  - unfold BackendSchema.field_names, BackendSchema.dict.
    rewrite !elem_of_cons, elem_of_nil.
    intros H. repeat (destruct H as [->|H]; [by eexists|]). done.
  - intros [v Hv]. unfold BackendSchema.dict in Hv.
    unfold BackendSchema.field_names.
    repeat (apply lookup_insert_Some in Hv as [[<- _]|[_ Hv]];
            [apply (bool_decide_unpack _); vm_compute; exact I|]).
    by rewrite lookup_empty in Hv.
Qed.

(** When the gate's vocabulary names only fields of the request schema,
    [reindex] fills nothing in: every cell of the frame is the value the
    request itself carries under that column's name. *)
Theorem schema_fields_never_missing (data : BackendSchema.MachineInput)
    (features : list string) (i : nat) (c : string) :
  (∀ c, c ∈ features → c ∈ BackendSchema.field_names) →
  features !! i = Some c →
  ∃ v, BackendSchema.dict data !! c = Some v ∧
       reindex (BackendSchema.dict data) features !! i = Some (c, v).
Proof.
  intros Hsub Hi.
  assert (c ∈ features) as Hc by (by eapply list_elem_of_lookup_2).
  destruct (proj1 (backend_dict_lookup data c) (Hsub c Hc)) as [v Hv].
  exists v. split; [done|].
  unfold reindex, DataFrame. rewrite list_lookup_fmap, Hi. simpl.
  by rewrite Hv.
Qed.

(** A vocabulary name that is no field of the request schema is a missing
    cell on every request. *)
Theorem foreign_feature_always_missing (data : BackendSchema.MachineInput)
    (features : list string) (i : nat) (c : string) :
  features !! i = Some c →
  c ∉ BackendSchema.field_names →
  values (reindex (BackendSchema.dict data) features) !! i = Some NaN.
Proof.
  intros Hi Hc. unfold values, reindex, DataFrame.
  rewrite !list_lookup_fmap, Hi. simpl.
  destruct (backend_dict_lookup data c) as [_ Hfield].
  destruct (BackendSchema.dict data !! c) as [v|] eqn:Hlook; [|done].
  exfalso. apply Hc, Hfield. by eexists.
Qed.

(** The report generator returns the prediction it was given and the
    matching status, and sends at most one request. *)
Lemma report_shape (client : option VehicleReport.Groq) (r : PredictionResult)
    (vehicle_type : string) (age km : Q) (name model : string) :
  let out := VehicleReport.generate_maintenance_report strip str client r
               vehicle_type age km name model in
  VehicleReport.prediction out.1 = r ∧
  VehicleReport.status (VehicleReport.maintenance_report out.1)
  = (if decide (failure r = 1%Z)
     then "CRITICAL - Failure Detected" else "Operational") ∧
  length out.2 = match client with Some _ => 1%nat | None => 0%nat end.
Proof.
  unfold VehicleReport.generate_maintenance_report.
  destruct client as [groq|]; [|done]. simpl.
  destruct (VehicleReport.create groq _) as [[|[content|] choices]|e]; done.
Qed.

(** An inference exception becomes the HTTP error 500 carrying [str(e)];
    the report generator is not reached, so no Groq request is sent. *)
Theorem inference_error_is_500 (client : option VehicleReport.Groq)
    (data : BackendSchema.MachineInput) (s : Store) (e : exn) :
  (predict_machine_failure (BackendSchema.dict data) s).1 = Raise e →
  BackendMain.predict strip str client data s
  = (HTTPException 500 (str e),
     (predict_machine_failure (BackendSchema.dict data) s).2, []).
Proof.
  intros He. unfold BackendMain.predict.
  destruct (predict_machine_failure _ s) as [o s']. simpl in He. by subst o.
Qed.

(** Once inference returns a record, the endpoint answers 200 whatever the
    Groq client does, also when Groq raises; the body carries the record
    unchanged, its status is the critical one exactly when [failure == 1],
    and one Groq request was sent if there is a client, none otherwise. *)
Theorem report_never_fails_request (client : option VehicleReport.Groq)
    (data : BackendSchema.MachineInput) (s : Store) (r : PredictionResult) :
  (predict_machine_failure (BackendSchema.dict data) s).1 = Ret r →
  ∃ body requests,
    BackendMain.predict strip str client data s
    = (OK body, (predict_machine_failure (BackendSchema.dict data) s).2,
       requests) ∧
    VehicleReport.prediction body = r ∧
    (VehicleReport.status (VehicleReport.maintenance_report body)
     = "CRITICAL - Failure Detected" ↔ failure r = 1%Z) ∧
    length requests = match client with Some _ => 1%nat | None => 0%nat end.
Proof.
  intros Hr. unfold BackendMain.predict.
  destruct (predict_machine_failure _ s) as [o s']. simpl in Hr. subst o.
  set (vt := if BackendSchema.Type_L data then "L" else "M").
  destruct (report_shape client r vt (BackendSchema.machine_age data)
              (BackendSchema.total_kilometers data)
              (BackendSchema.vehicle_name data) (BackendSchema.model data))
    as (Hpred & Hstatus & Hlen).
  destruct (VehicleReport.generate_maintenance_report _ _ _ _ _ _ _ _ _)
    as [body requests]. simpl in *.
  exists body, requests. split; [done|]. split; [done|]. split; [|done].
  rewrite Hstatus. by case_decide.
Qed.

(** What Groq answers decides only the report text: an exception gives
    [groq_available: False] with [error: str(e)]; no choice gives the text
    "No report generated."; otherwise the text is the stripped content of
    the first choice. *)
Theorem groq_outcomes (groq : VehicleReport.Groq) (r : PredictionResult)
    (vehicle_type : string) (age km : Q) (name model : string) :
  ∃ request,
    let out := VehicleReport.generate_maintenance_report strip str (Some groq)
                 r vehicle_type age km name model in
    let m := VehicleReport.maintenance_report out.1 in
    out.2 = [request] ∧
    (∀ e, VehicleReport.create groq request = Raise e →
       VehicleReport.groq_available m = false ∧
       VehicleReport.error m = Some (str e) ∧
       VehicleReport.report m = None) ∧
    (VehicleReport.create groq request = Ret [] →
       VehicleReport.groq_available m = true ∧
       VehicleReport.report m = Some "No report generated.") ∧
    (∀ content choices,
       VehicleReport.create groq request = Ret (Some content :: choices) →
       VehicleReport.groq_available m = true ∧
       VehicleReport.report m = Some (strip content) ∧
       VehicleReport.error m = None).
Proof.
  unfold VehicleReport.generate_maintenance_report. eexists. simpl.
  destruct (VehicleReport.create groq _) as [[|[content|] choices]|e] eqn:Hc;
    simpl; (split; [reflexivity|]); rewrite ?Hc;
    repeat split; try done; intros; simplify_eq; done.
Qed.

(** The vehicle quality of the report follows [Type_L] alone: a request
    with [Type_L] is reported as low quality, every other request as medium
    quality, whatever [Type_M] says. *)
Theorem quality_follows_Type_L (groq : VehicleReport.Groq)
    (data : BackendSchema.MachineInput) (s : Store)
    (body : VehicleReport.DetailedReport) (info : VehicleReport.VehicleInfo) :
  (BackendMain.predict strip str (Some groq) data s).1.1 = OK body →
  VehicleReport.vehicle_info (VehicleReport.maintenance_report body) = Some info →
  VehicleReport.quality info
  = (if BackendSchema.Type_L data then "Low Quality" else "Medium Quality") ∧
  VehicleReport.type info = (if BackendSchema.Type_L data then "L" else "M").
Proof.
  unfold BackendMain.predict.
  destruct (predict_machine_failure _ s) as [[r|e] s']; [|done].
  unfold VehicleReport.generate_maintenance_report. simpl.
  destruct (VehicleReport.create groq _) as [[|[content|] choices]|e];
    simpl; intros [= <-]; simpl; intros Hinfo; simplify_eq; simpl;
    by destruct (BackendSchema.Type_L data).
Qed.

(** Outside the metadata, a backend request dict reads like the dict of its
    measurements. *)
Lemma backend_dict_measurements (data : BackendSchema.MachineInput) (c : string) :
  c ∉ BackendSchema.metadata_names →
  BackendSchema.dict data !! c
  = AppSchema.dict (BackendSchema.measurements data) !! c.
Proof.
  unfold BackendSchema.metadata_names.
  rewrite !not_elem_of_cons. intros (H1 & H2 & H3 & H4 & _).
  unfold BackendSchema.dict, AppSchema.dict, BackendSchema.measurements. simpl.
  rewrite !lookup_insert.
  repeat (case_decide; [done|]). done.
Qed.

(** Two requests with the same measurements get the same prediction,
    whatever their vehicle name, model, age and distance, when no metadata
    field is in the gate's vocabulary. *)
Theorem metadata_does_not_sway_prediction (data data' : BackendSchema.MachineInput)
    (s : Store) :
  BackendSchema.measurements data = BackendSchema.measurements data' →
  (∀ c, c ∈ BackendSchema.metadata_names → c ∉ STAGE1_FEATURES (globals s)) →
  predict_machine_failure (BackendSchema.dict data) s
  = predict_machine_failure (BackendSchema.dict data') s.
Proof.
  intros Hsame Hmeta. apply predict_agree. intros c Hc.
  rewrite !backend_dict_measurements, Hsame; [done|..];
    intros Hin; by apply (Hmeta c).
Qed.

End EndpointFacts.

(** ** The [Predictor] class beyond its two guards *)

Section PredictorOpsFacts.
Context {FS : Type} (env : PredictorOps.Surroundings FS).
Implicit Types (w : PredictorOps.World FS) (self : PredictPy.Predictor).

Lemma world_eta w : PredictorOps.mkWorld (PredictorOps.fs w) (PredictorOps.stdout w) = w.
Proof. by destruct w. Qed.

(** Construction when there is nothing to load. *)
Lemma init_nothing_to_load (model_path : option string) w :
  (∀ path, model_path = Some path → path ≠ "" →
           PredictorOps.path_exists env (PredictorOps.fs w) path = false) →
  PredictorOps.init env model_path w
  = (Ret (PredictPy.mkPredictor None model_path), w).
Proof.
  intros Hno. unfold PredictorOps.init.
  destruct model_path as [path|]; [|done].
  destruct (String.eqb_spec path "") as [->|Hne]; [done|]. simpl.
  by rewrite (Hno path eq_refl Hne).
Qed.

(** Construction when the file exists and unpickles. *)
Lemma init_loads (path : string) (m : PredictPy.Estimator) w :
  path ≠ "" →
  PredictorOps.path_exists env (PredictorOps.fs w) path = true →
  PredictorOps.pickle_load env (PredictorOps.fs w) path = Ret m →
  PredictorOps.init env (Some path) w
  = (Ret (PredictPy.mkPredictor (Some m) (Some path)),
     PredictorOps.print
       (PredictorOps.Info "Model loaded successfully from " path) w).
Proof.
  intros Hne Hex Hload. unfold PredictorOps.init, PredictorOps.load_model.
  destruct (String.eqb_spec path "") as [->|_]; [done|]. simpl.
  by rewrite Hex, Hload.
Qed.

(** A predictor built on no path, an empty path or a path that does not
    exist holds no model, and building it prints nothing: the standalone
    [predict] then raises the [ValueError] of the missing model, not a file
    error, and [save_model] raises its own [ValueError] without touching
    the file system. *)
Theorem nothing_to_load (model_path : option string) (X : matrix)
    (target : string) w :
  (∀ path, model_path = Some path → path ≠ "" →
           PredictorOps.path_exists env (PredictorOps.fs w) path = false) →
  PredictorOps.predict env model_path X w
  = (Raise (ValueError "No model loaded. Load or train a model first."), w) ∧
  ∃ self,
    PredictorOps.init env model_path w = (Ret self, w) ∧
    PredictorOps.save_model env self target w
    = (Raise (ValueError "No model to save. Train a model first."), w).
Proof.
  intros Hno. unfold PredictorOps.predict.
  rewrite (init_nothing_to_load _ _ Hno). split.
  - unfold PredictorOps.predict_in. simpl. rewrite app_nil_r.
    by rewrite world_eta.
  - by eexists.
Qed.

(** A model file that exists but does not unpickle makes the construction
    itself raise the unpickling exception, after one error line: the
    standalone [predict] raises it too and never reaches the model check. *)
Theorem unreadable_model_file (path : string) (X : matrix) (e : exn) w :
  path ≠ "" →
  PredictorOps.path_exists env (PredictorOps.fs w) path = true →
  PredictorOps.pickle_load env (PredictorOps.fs w) path = Raise e →
  PredictorOps.predict env (Some path) X w
  = (Raise e,
     PredictorOps.print
       (PredictorOps.Failure (PredictPy.ErrorLine "Error loading model: " e)) w).
Proof.
  intros Hne Hex Hload.
  unfold PredictorOps.predict, PredictorOps.init, PredictorOps.load_model.
  destruct (String.eqb_spec path "") as [->|_]; [done|]. simpl.
  by rewrite Hex, Hload.
Qed.

(** Saving and loading back: where pickling round-trips, a predictor built
    from the path just saved to predicts exactly as the saving one. *)
Theorem save_then_load_predicts_alike self (path : string) (X : matrix) w w' :
  (∀ fs p m fs',
     PredictorOps.pickle_dump env fs p m = (Ret (), fs') →
     PredictorOps.path_exists env fs' p = true ∧
     PredictorOps.pickle_load env fs' p = Ret m) →
  path ≠ "" →
  PredictorOps.save_model env self path w = (Ret (), w') →
  (PredictorOps.predict env (Some path) X w').1 = (PredictPy.predict self X).1 ∧
  ∃ loaded w'',
    PredictorOps.init env (Some path) w' = (Ret loaded, w'') ∧
    PredictPy.model loaded = PredictPy.model self.
Proof.
  intros Hlaw Hne Hsave. unfold PredictorOps.save_model in Hsave.
  destruct (PredictPy.model self) as [m|] eqn:Hm; [|done].
  destruct (PredictorOps.pickle_dump env _ path m) as [[[]|e] fs'] eqn:Hdump;
    [|done].
  injection Hsave as <-.
  destruct (Hlaw _ _ _ _ Hdump) as [Hex Hload].
  assert (PredictorOps.init env (Some path)
            (PredictorOps.print
               (PredictorOps.Info "Model saved successfully to " path)
               (PredictorOps.mkWorld fs' (PredictorOps.stdout w)))
          = (Ret (PredictPy.mkPredictor (Some m) (Some path)),
             PredictorOps.print
               (PredictorOps.Info "Model loaded successfully from " path)
               (PredictorOps.print
                  (PredictorOps.Info "Model saved successfully to " path)
                  (PredictorOps.mkWorld fs' (PredictorOps.stdout w)))))
    as Hinit by (by apply init_loads).
  split.
  - unfold PredictorOps.predict. rewrite Hinit.
    unfold PredictorOps.predict_in, PredictPy.predict. simpl. rewrite Hm.
    by destruct (PredictPy.est_predict m X).
  - eexists _, _. split; [exact Hinit|done].
Qed.

(** After [train] the predictor holds a model, also when fitting raised,
    so [predict] answers with that model and no longer with the missing
    model error.  The model is the one passed in if there is one, else the
    one already held, else a fresh logistic regression, as [fit] left it;
    the outcome of [train] is the outcome of that [fit]. *)
Theorem train_sets_model self (X_train : matrix) (y_train : list Z)
    (model : option PredictPy.Estimator) w :
  ∃ chosen,
    (PredictorOps.train env self X_train y_train model w).1
    = ((PredictorOps.fit env chosen X_train y_train).1,
       PredictPy.mkPredictor
         (Some (PredictorOps.fit env chosen X_train y_train).2)
         (PredictPy.model_path self)) ∧
    (∀ X, (PredictPy.predict
             (PredictorOps.train env self X_train y_train model w).1.2 X).1
          = PredictPy.est_predict
              (PredictorOps.fit env chosen X_train y_train).2 X) ∧
    (∀ m, model = Some m → chosen = m) ∧
    (∀ current, model = None → PredictPy.model self = Some current →
                chosen = current) ∧
    (model = None → PredictPy.model self = None →
     chosen = PredictorOps.LogisticRegression env).
Proof.
  unfold PredictorOps.train.
  set (chosen := match model with
                 | Some m => m
                 | None => match PredictPy.model self with
                           | Some current => current
                           | None => PredictorOps.LogisticRegression env
                           end
                 end).
  exists chosen. split; [|split; [|split; [|split]]].
  - by destruct (PredictorOps.fit env chosen _ _) as [[[]|e] m].
  - intros X. unfold PredictPy.predict.
    destruct (PredictorOps.fit env chosen _ _) as [[[]|e] m]; simpl;
      by destruct (PredictPy.est_predict m X).
  - by intros m ->.
  - intros current -> Hcur. subst chosen. by rewrite Hcur.
  - intros -> Hcur. subst chosen. by rewrite Hcur.
Qed.

End PredictorOpsFacts.

(** ** The added properties at concrete artifacts *)

Section MoreWitnesses.
Local Open Scope Q_scope.

Lemma only_vocabulary_fields_matter_witness :
  predict_machine_failure Demo.record Demo.failing
  = predict_machine_failure (<["vehicle_name" := VStr "van"]> Demo.record)
      Demo.failing.
Proof.
  apply (only_vocabulary_fields_matter Demo.record
           (<["vehicle_name" := VStr "van"]> Demo.record) Demo.failing).
  intros c Hc. simpl in Hc. unfold Demo.features in Hc.
  repeat (apply elem_of_cons in Hc as [->|Hc]; [by vm_compute|]).
  by apply elem_of_nil in Hc.
Defined.

Lemma gate_exception_propagates_witness :
  predict_machine_failure Demo.record (Demo.store Fixtures.G_gate_raises)
  = (Raise (ModelError "bad input shape"),
     after_stage1 (Demo.store Fixtures.G_gate_raises)
       (reindex Demo.record
          (STAGE1_FEATURES (globals (Demo.store Fixtures.G_gate_raises))))).
Proof.
  apply (gate_exception_propagates Demo.record
           (Demo.store Fixtures.G_gate_raises)).
  reflexivity.
Defined.

Lemma mode_exception_propagates_witness :
  predict_machine_failure Demo.record (Demo.store Fixtures.G_modes_raise)
  = (Raise (ModelError "bad input shape"),
     after_stage2 (Demo.store Fixtures.G_modes_raise)
       (reindex Demo.record
          (STAGE1_FEATURES (globals (Demo.store Fixtures.G_modes_raise))))).
Proof.
  apply (mode_exception_propagates Demo.record
           (Demo.store Fixtures.G_modes_raise) (80 # 100) (5 # 10));
    [reflexivity|reflexivity|by vm_compute|reflexivity].
Defined.

Lemma classifier_calls_witness :
  stage1_calls (calls (predict_machine_failure Demo.record Demo.failing).2)
  = S (stage1_calls (calls Demo.failing)) ∧
  (5 # 10 <= 80 # 100 →
     calls (predict_machine_failure Demo.record Demo.failing).2
     = calls Demo.failing ++
       [Stage1Call (reindex Demo.record (STAGE1_FEATURES (globals Demo.failing)));
        Stage2Call
          (values (reindex Demo.record (STAGE1_FEATURES (globals Demo.failing))))] ∧
     stage2_calls (calls (predict_machine_failure Demo.record Demo.failing).2)
     = S (stage2_calls (calls Demo.failing))).
Proof.
  apply (classifier_calls Demo.record Demo.failing (80 # 100) (5 # 10));
    reflexivity.
Defined.

Lemma too_few_channels_witness :
  (predict_machine_failure Demo.record
     (Demo.store (Demo.G (80 # 100) [90 # 100]))).1
  = Raise IndexError.
Proof.
  apply (too_few_channels Demo.record
           (Demo.store (Demo.G (80 # 100) [90 # 100])) (80 # 100) (5 # 10)
           [[[1 - (90 # 100); 90 # 100]]] ["A"] [] "B");
    [reflexivity|reflexivity|by vm_compute|reflexivity|reflexivity| |reflexivity].
  intros [|j] col Hj; simpl in Hj; [|done]. injection Hj as <-.
  split; by eexists.
Defined.

Lemma surplus_channels_ignored_witness :
  (predict_machine_failure Demo.record
     (Demo.store (Demo.G (80 # 100) [90 # 100; 60 # 100; 30 # 100]))).1
  = (predict_machine_failure Demo.record Demo.failing).1.
Proof.
  apply (surplus_channels_ignored Demo.record Demo.failing
           (Demo.store (Demo.G (80 # 100) [90 # 100; 60 # 100; 30 # 100]))
           (80 # 100) (5 # 10)
           [[[1 - (90 # 100); 90 # 100]]; [[1 - (60 # 100); 60 # 100]]]
           [[[1 - (30 # 100); 30 # 100]]]);
    [reflexivity|reflexivity|reflexivity|reflexivity|reflexivity|reflexivity
    |reflexivity|by vm_compute|reflexivity|reflexivity|simpl; lia].
Defined.

Lemma failure_types_in_vocabulary_order_witness :
  failure_types (attributed (80 # 100) ([("A", 900 # 1000); ("B", 600 # 1000)], true))
  = Some (match reported (FAILURE_THRESHOLDS (globals Demo.failing))
                  [[[1 - (90 # 100); 90 # 100]]; [[1 - (60 # 100); 60 # 100]]]
                  0 (FAILURE_COLS (globals Demo.failing)) with
          | [] => [("RNF", Num.round3 (80 # 100))]
          | modes => modes
          end).
Proof.
  apply (failure_types_in_vocabulary_order Demo.record Demo.failing
           (80 # 100) (5 # 10));
    [reflexivity|reflexivity|by vm_compute|reflexivity| |by vm_compute].
  apply (bool_decide_unpack _). vm_compute. exact I.
Defined.

Lemma failure_types_is_mapping_witness :
  NoDup (keys [("A", 900 # 1000); ("B", 600 # 1000)]) ∧
  (1 <= length [("A", 900 # 1000); ("B", 600 # 1000)]
   <= Nat.max 1 (length (FAILURE_COLS (globals Demo.failing))))%nat.
Proof.
  apply (failure_types_is_mapping Demo.record Demo.failing
           (after_stage2 Demo.failing (reindex Demo.record Demo.features))
           (attributed (80 # 100) ([("A", 900 # 1000); ("B", 600 # 1000)], true)));
    [by vm_compute|reflexivity].
Defined.

Lemma gate_threshold_precedence_witness :
  (∀ t, sd_threshold (Demo.stage1_dict (70 # 100)) = Some t →
        (failure (attributed (70 # 100)
                    ([("A", 900 # 1000); ("B", 600 # 1000)], true)) = 0%Z
         ↔ 70 # 100 < t)) ∧
  (∀ t, sd_threshold (Demo.stage1_dict (70 # 100)) = None →
        cfg_stage1_threshold Fixtures.config_both = Some t →
        (failure (attributed (70 # 100)
                    ([("A", 900 # 1000); ("B", 600 # 1000)], true)) = 0%Z
         ↔ 70 # 100 < t)).
Proof.
  apply (gate_threshold_precedence (Demo.stage1_dict (70 # 100))
           (Demo.modes [90 # 100; 60 # 100]) Fixtures.config_both
           (Demo.G (70 # 100) [90 # 100; 60 # 100]) Demo.record []);
    [reflexivity|reflexivity|by vm_compute].
Defined.

Lemma no_default_gate_threshold_witness :
  ∃ g,
    load_module (Fixtures.stage1_dict_bare (80 # 100))
      (Demo.modes [90 # 100; 60 # 100]) Fixtures.config_bare = Ret g ∧
    ∀ (input_data : gmap string value) (log : list event) (p : Q),
      gate_probability g input_data = Ret p →
      predict_machine_failure input_data (mkStore g log)
      = (Raise TypeError,
         after_stage1 (mkStore g log) (reindex input_data Demo.features)).
Proof.
  apply (no_default_gate_threshold (Fixtures.stage1_dict_bare (80 # 100))
           (Demo.modes [90 # 100; 60 # 100]) Fixtures.config_bare
           (Demo.gate (80 # 100)) Demo.features Demo.thresholds_AB ["A"; "B"]);
    reflexivity.
Defined.

Lemma reported_probability_margin_witness :
  (failure (mkResult 0 (500 # 1000) None) = 1%Z →
     (5 # 10) - (1 # 2000) <= failure_probability (mkResult 0 (500 # 1000) None)) ∧
  (failure (mkResult 0 (500 # 1000) None) = 0%Z →
     failure_probability (mkResult 0 (500 # 1000) None) < (5 # 10) + (1 # 2000)) ∧
  (∀ ft col v t_i,
     failure_types (mkResult 0 (500 # 1000) None) = Some ft →
     (col, v) ∈ ft → col ≠ "RNF" →
     FAILURE_THRESHOLDS
       (globals (Demo.store (Demo.G (4996 # 10000) []))) !! col = Some t_i →
     t_i - (1 # 2000) <= v).
Proof.
  apply (reported_probability_margin Demo.record
           (Demo.store (Demo.G (4996 # 10000) []))
           (after_stage1 (Demo.store (Demo.G (4996 # 10000) []))
              (reindex Demo.record Demo.features))
           (mkResult 0 (500 # 1000) None) (4996 # 10000) (5 # 10));
    [by vm_compute|reflexivity|reflexivity].
Defined.

Lemma schema_fields_never_missing_witness :
  ∃ v, BackendSchema.dict Fixtures.request !! "Torque" = Some v ∧
       reindex (BackendSchema.dict Fixtures.request) Demo.features !! 3%nat
       = Some ("Torque", v).
Proof.
  apply (schema_fields_never_missing Fixtures.request Demo.features 3 "Torque");
    [|reflexivity].
  intros c Hc. unfold Demo.features in Hc.
  repeat (apply elem_of_cons in Hc as [->|Hc];
          [apply (bool_decide_unpack _); vm_compute; exact I|]).
  by apply elem_of_nil in Hc.
Defined.

Lemma foreign_feature_always_missing_witness :
  values (reindex (BackendSchema.dict Fixtures.request)
            Fixtures.dataset_features) !! 0%nat = Some NaN.
Proof.
  apply (foreign_feature_always_missing Fixtures.request
           Fixtures.dataset_features 0 "Air temperature [K]").
  - reflexivity.
  - apply (bool_decide_unpack _). vm_compute. exact I.
Defined.

Lemma inference_error_is_500_witness :
  BackendMain.predict Fixtures.strip Fixtures.str (Some Fixtures.groq_ok)
    Fixtures.request (Demo.store_missing (80 # 100))
  = (HTTPException 500 (Fixtures.str (KeyError "B")),
     (predict_machine_failure (BackendSchema.dict Fixtures.request)
        (Demo.store_missing (80 # 100))).2, []).
Proof.
  apply (inference_error_is_500 Fixtures.strip Fixtures.str
           (Some Fixtures.groq_ok) Fixtures.request
           (Demo.store_missing (80 # 100)) (KeyError "B")).
  by vm_compute.
Defined.

Lemma report_never_fails_request_witness :
  ∃ body requests,
    BackendMain.predict Fixtures.strip Fixtures.str (Some Fixtures.groq_down)
      Fixtures.request Demo.healthy
    = (OK body,
       (predict_machine_failure (BackendSchema.dict Fixtures.request)
          Demo.healthy).2, requests) ∧
    VehicleReport.prediction body = mkResult 0 (300 # 1000) None ∧
    (VehicleReport.status (VehicleReport.maintenance_report body)
     = "CRITICAL - Failure Detected"
     ↔ failure (mkResult 0 (300 # 1000) None) = 1%Z) ∧
    length requests = 1%nat.
Proof.
  apply (report_never_fails_request Fixtures.strip Fixtures.str
           (Some Fixtures.groq_down) Fixtures.request Demo.healthy).
  by vm_compute.
Defined.

Lemma quality_follows_Type_L_witness :
  VehicleReport.quality
    (VehicleReport.mkVehicleInfo "truck-7" "T800" "L" "Low Quality"
       (3 # 1) (120000 # 1))
  = (if BackendSchema.Type_L Fixtures.request
     then "Low Quality" else "Medium Quality") ∧
  VehicleReport.type
    (VehicleReport.mkVehicleInfo "truck-7" "T800" "L" "Low Quality"
       (3 # 1) (120000 # 1))
  = (if BackendSchema.Type_L Fixtures.request then "L" else "M").
Proof.
  apply (quality_follows_Type_L Fixtures.strip Fixtures.str Fixtures.groq_ok
           Fixtures.request Demo.healthy
           (VehicleReport.generate_maintenance_report Fixtures.strip
              Fixtures.str (Some Fixtures.groq_ok)
              (mkResult 0 (300 # 1000) None) "L" (3 # 1) (120000 # 1)
              "truck-7" "T800").1);
    by vm_compute.
Defined.

Lemma metadata_does_not_sway_prediction_witness :
  predict_machine_failure (BackendSchema.dict Fixtures.request) Demo.failing
  = predict_machine_failure (BackendSchema.dict Fixtures.request_renamed)
      Demo.failing.
Proof.
  apply (metadata_does_not_sway_prediction Fixtures.request
           Fixtures.request_renamed Demo.failing); [reflexivity|].
  intros c Hc. unfold BackendSchema.metadata_names in Hc.
  repeat (apply elem_of_cons in Hc as [->|Hc];
          [apply (bool_decide_unpack _); vm_compute; exact I|]).
  by apply elem_of_nil in Hc.
Defined.

Lemma groq_outcomes_witness :
  ∃ request,
    let out := VehicleReport.generate_maintenance_report Fixtures.strip
                 Fixtures.str (Some Fixtures.groq_silent)
                 (mkResult 0 (300 # 1000) None) "M" (3 # 1) (120000 # 1)
                 "truck-7" "T800" in
    let m := VehicleReport.maintenance_report out.1 in
    out.2 = [request] ∧
    (∀ e, VehicleReport.create Fixtures.groq_silent request = Raise e →
       VehicleReport.groq_available m = false ∧
       VehicleReport.error m = Some (Fixtures.str e) ∧
       VehicleReport.report m = None) ∧
    (VehicleReport.create Fixtures.groq_silent request = Ret [] →
       VehicleReport.groq_available m = true ∧
       VehicleReport.report m = Some "No report generated.") ∧
    (∀ content choices,
       VehicleReport.create Fixtures.groq_silent request
       = Ret (Some content :: choices) →
       VehicleReport.groq_available m = true ∧
       VehicleReport.report m = Some (Fixtures.strip content) ∧
       VehicleReport.error m = None).
Proof.
  apply (groq_outcomes Fixtures.strip Fixtures.str Fixtures.groq_silent
           (mkResult 0 (300 # 1000) None) "M" (3 # 1) (120000 # 1)
           "truck-7" "T800").
Defined.

Lemma nothing_to_load_witness :
  PredictorOps.predict Fixtures.flat (Some "models/sample_model.pkl")
    [[1 # 1; 2 # 1]] Fixtures.empty_world
  = (Raise (ValueError "No model loaded. Load or train a model first."),
     Fixtures.empty_world) ∧
  ∃ self,
    PredictorOps.init Fixtures.flat (Some "models/sample_model.pkl")
      Fixtures.empty_world = (Ret self, Fixtures.empty_world) ∧
    PredictorOps.save_model Fixtures.flat self "out.pkl" Fixtures.empty_world
    = (Raise (ValueError "No model to save. Train a model first."),
       Fixtures.empty_world).
Proof.
  apply (nothing_to_load Fixtures.flat (Some "models/sample_model.pkl")
           [[1 # 1; 2 # 1]] "out.pkl" Fixtures.empty_world).
  intros path [= <-] _. by vm_compute.
Defined.

Lemma unreadable_model_file_witness :
  PredictorOps.predict Fixtures.torn (Some "m.pkl") [[1 # 1; 2 # 1]]
    Fixtures.empty_world
  = (Raise (ModelError "UnpicklingError"),
     PredictorOps.print
       (PredictorOps.Failure
          (PredictPy.ErrorLine "Error loading model: "
             (ModelError "UnpicklingError")))
       Fixtures.empty_world).
Proof.
  apply (unreadable_model_file Fixtures.torn "m.pkl" [[1 # 1; 2 # 1]]
           (ModelError "UnpicklingError") Fixtures.empty_world);
    [done|reflexivity|reflexivity].
Defined.

Lemma flat_round_trips (files : gmap string PredictPy.Estimator) (p : string)
    (m : PredictPy.Estimator) (files' : gmap string PredictPy.Estimator) :
  PredictorOps.pickle_dump Fixtures.flat files p m = (Ret (), files') →
  PredictorOps.path_exists Fixtures.flat files' p = true ∧
  PredictorOps.pickle_load Fixtures.flat files' p = Ret m.
Proof.
  simpl. intros [= <-]. rewrite lookup_insert_eq. split; [|done].
  apply bool_decide_eq_true. by eexists.
Qed.

Lemma save_then_load_predicts_alike_witness :
  (PredictorOps.predict Fixtures.flat (Some "m.pkl") [[1 # 1; 2 # 1]]
     (PredictorOps.print (PredictorOps.Info "Model saved successfully to " "m.pkl")
        (PredictorOps.mkWorld (<["m.pkl" := Fixtures.always_one]> ∅) []))).1
  = (PredictPy.predict
       (PredictPy.mkPredictor (Some Fixtures.always_one) None)
       [[1 # 1; 2 # 1]]).1 ∧
  ∃ loaded w'',
    PredictorOps.init Fixtures.flat (Some "m.pkl")
      (PredictorOps.print (PredictorOps.Info "Model saved successfully to " "m.pkl")
         (PredictorOps.mkWorld (<["m.pkl" := Fixtures.always_one]> ∅) []))
    = (Ret loaded, w'') ∧
    PredictPy.model loaded
    = PredictPy.model (PredictPy.mkPredictor (Some Fixtures.always_one) None).
Proof.
  apply (save_then_load_predicts_alike Fixtures.flat
           (PredictPy.mkPredictor (Some Fixtures.always_one) None) "m.pkl"
           [[1 # 1; 2 # 1]] Fixtures.empty_world);
    [apply flat_round_trips|done|reflexivity].
Defined.

Lemma train_sets_model_witness :
  ∃ chosen,
    (PredictorOps.train Fixtures.flat
       (PredictPy.mkPredictor (Some Fixtures.always_one) None)
       [[1 # 1; 2 # 1]] [1%Z] (Some Fixtures.unfitted) Fixtures.empty_world).1
    = ((PredictorOps.fit Fixtures.flat chosen [[1 # 1; 2 # 1]] [1%Z]).1,
       PredictPy.mkPredictor
         (Some (PredictorOps.fit Fixtures.flat chosen [[1 # 1; 2 # 1]] [1%Z]).2)
         (PredictPy.model_path
            (PredictPy.mkPredictor (Some Fixtures.always_one) None))) ∧
    (∀ X, (PredictPy.predict
             (PredictorOps.train Fixtures.flat
                (PredictPy.mkPredictor (Some Fixtures.always_one) None)
                [[1 # 1; 2 # 1]] [1%Z] (Some Fixtures.unfitted)
                Fixtures.empty_world).1.2 X).1
          = PredictPy.est_predict
              (PredictorOps.fit Fixtures.flat chosen [[1 # 1; 2 # 1]] [1%Z]).2 X) ∧
    (∀ m, Some Fixtures.unfitted = Some m → chosen = m) ∧
    (∀ current, Some Fixtures.unfitted = None →
                PredictPy.model
                  (PredictPy.mkPredictor (Some Fixtures.always_one) None)
                = Some current →
                chosen = current) ∧
    (Some Fixtures.unfitted = None →
     PredictPy.model (PredictPy.mkPredictor (Some Fixtures.always_one) None)
     = None →
     chosen = PredictorOps.LogisticRegression Fixtures.flat).
Proof.
  apply (train_sets_model Fixtures.flat
           (PredictPy.mkPredictor (Some Fixtures.always_one) None)
           [[1 # 1; 2 # 1]] [1%Z] (Some Fixtures.unfitted)
           Fixtures.empty_world).
Defined.

End MoreWitnesses.

(** ** The call on the heap *)

Section HeapFacts.
Context {state1 state2 : Type}.
Variable predict_proba1 : state1 → DataFrame → outcome matrix * state1.
Variable predict_proba2 : state2 → list value → outcome (list matrix) * state2.
Implicit Types (st : @Heap.PyState state1 state2) (l : positive).

(** A dict read through [list_to_map] answers as [dict_get] does. *)
Lemma list_to_map_dict_get (d : dict Q) (k : string) :
  (list_to_map d : gmap string Q) !! k = dict_get k d.
Proof.
  induction d as [|[k' v] d IH]; [done|].
  simpl. rewrite lookup_insert.
  destruct (decide (k' = k)) as [->|Hne].
  - by rewrite decide_True.
  - by rewrite decide_False.
Qed.

Lemma store_object_id st l o :
  Heap.objects st !! l = Some o → Heap.store_object l o st = st.
Proof.
  intros Hl. destruct st as [n objs nx]. unfold Heap.store_object. simpl in *.
  by rewrite insert_id.
Qed.

Lemma store_object_twice st l o o' :
  Heap.store_object l o' (Heap.store_object l o st) = Heap.store_object l o' st.
Proof.
  unfold Heap.store_object. simpl. by rewrite insert_insert_eq.
Qed.

(** The loop writes to the dict at [ft] only, and computes what [detect]
    computes on the contents of that dict and of the threshold dict. *)
Lemma heap_mode_loop (probs : list matrix) (ft : positive) (thr : dict Q)
    (thresholds : gmap string Q) (cols : list string) :
  (∀ k, thresholds !! k = dict_get k thr) →
  ∀ (i : nat) (d : dict Q) (detected : bool) st,
  Heap.objects st !! ft = Some (Heap.DictObj d) →
  Heap.objects st !! Heap.ref_FAILURE_THRESHOLDS (Heap.names st)
  = Some (Heap.DictObj thr) →
  ft ≠ Heap.ref_FAILURE_THRESHOLDS (Heap.names st) →
  ∃ d',
    Heap.mode_loop probs ft i cols detected st
    = (match detect thresholds probs i cols (d, detected) with
       | Ret res => Ret res.2
       | Raise e => Raise e
       end,
       Heap.store_object ft (Heap.DictObj d') st) ∧
    (∀ res, detect thresholds probs i cols (d, detected) = Ret res →
            d' = res.1).
Proof.
  intros Hmap.
  induction cols as [|col rest IH]; intros i d detected st Hft Hthr Hne.
  - exists d. simpl. split; [|by intros res [= <-]].
    unfold mret, Heap.H_ret. by rewrite store_object_id.
  - simpl. unfold mbind, Heap.H_bind, outcome_bind, Heap.pure_code, Heap.name.
    destruct (getindex probs i) as [channel|e]; simpl.
    2:{ exists d. split; [|done]. by rewrite store_object_id. }
    destruct (getitem2 channel 0 1) as [prob|e]; simpl.
    2:{ exists d. split; [|done]. by rewrite store_object_id. }
    unfold Heap.dict_getitem, getitem. rewrite Hthr, Hmap.
    destruct (dict_get col thr) as [t|]; simpl.
    2:{ exists d. split; [|done]. by rewrite store_object_id. }
    destruct (Num.geb prob t).
    + unfold Heap.dict_setitem. rewrite Hft.
      destruct (IH (S i) (dict_set col (Num.round3 prob) d) true
                  (Heap.store_object ft
                     (Heap.DictObj (dict_set col (Num.round3 prob) d)) st))
        as (d' & Hrun & Hd').
      * simpl. by rewrite lookup_insert_eq.
      * simpl. by rewrite lookup_insert_ne.
      * done.
      * exists d'. rewrite Hrun, store_object_twice. done.
    + destruct (IH (S i) d detected st Hft Hthr Hne) as (d' & Hrun & Hd').
      exists d'. by rewrite Hrun.
Qed.

(** A classifier call that leaves the classifier as it was leaves the whole
    state as it was. *)
Lemma call_gate_pure st l c X :
  (∀ c X, (predict_proba1 c X).2 = c) →
  Heap.objects st !! l = Some (Heap.GateObj c) →
  Heap.call_gate predict_proba1 l X st = ((predict_proba1 c X).1, st).
Proof.
  intros Hpure Hl. unfold Heap.call_gate. rewrite Hl.
  specialize (Hpure c X). destruct (predict_proba1 c X) as [o c'].
  simpl in *. subst c'. by rewrite store_object_id.
Qed.

Lemma call_modes_pure st l c X :
  (∀ c X, (predict_proba2 c X).2 = c) →
  Heap.objects st !! l = Some (Heap.ModesObj c) →
  Heap.call_modes predict_proba2 l X st = ((predict_proba2 c X).1, st).
Proof.
  intros Hpure Hl. unfold Heap.call_modes. rewrite Hl.
  specialize (Hpure c X). destruct (predict_proba2 c X) as [o c'].
  simpl in *. subst c'. by rewrite store_object_id.
Qed.

(** What a call does to a well-formed state when the classifiers leave
    themselves alone: the namespace is as before, every object that existed
    is as before, at most one object is new and it is the returned
    [failure_types]; and what the caller reads off the outcome is what the
    first model computes from the globals the state stands for. *)
Lemma heap_run (input_data : gmap string value) st (log : list event) :
  Heap.well_formed st →
  (∀ c X, (predict_proba1 c X).2 = c) →
  (∀ c X, (predict_proba2 c X).2 = c) →
  ∃ o st',
    Heap.predict_machine_failure predict_proba1 predict_proba2 input_data st
    = (o, st') ∧
    Heap.names st' = Heap.names st ∧
    (∀ l, l ≠ Heap.next st → Heap.objects st' !! l = Heap.objects st !! l) ∧
    (Heap.next st <= Heap.next st')%positive ∧
    (∀ l, is_Some (Heap.objects st' !! l) → (l < Heap.next st')%positive) ∧
    (∀ r l, o = Ret r → Heap.r_failure_types r = Some l →
            l = Heap.next st ∧ is_Some (Heap.objects st' !! l)) ∧
    Heap.observed st' o
    = (predict_machine_failure input_data
         (mkStore (Heap.globals_of predict_proba1 predict_proba2 st) log)).1.
Proof.
  intros (Hgate & Hmodes & Hfeat & Hcols & Hthr & Hbound) Hpure1 Hpure2.
  destruct Hgate as [c1 Hgate]. destruct Hmodes as [c2 Hmodes].
  destruct Hfeat as [feats Hfeat]. destruct Hcols as [cols Hcols].
  destruct Hthr as [thr Hthr].
  rewrite predict_run. simpl.
  unfold gate_probability, mode_probabilities, Heap.globals_of, Heap.dict_at.
  simpl. rewrite Hgate, Hmodes, Hfeat, Hcols, Hthr.
  unfold Heap.predict_machine_failure.
  unfold mbind, Heap.H_bind, outcome_bind, Heap.name, Heap.list_items,
    Heap.pure_code, Heap.new_dict, mret, Heap.H_ret.
  rewrite Hfeat. rewrite (call_gate_pure _ _ c1 _ Hpure1 Hgate).
  assert (∀ (o : outcome Heap.Returned),
            (∀ r l, o = Ret r → Heap.r_failure_types r = Some l → False) →
            ∀ res, Heap.observed st o = res →
            ∃ o' st', (o, st) = (o', st') ∧
              Heap.names st' = Heap.names st ∧
              (∀ l, l ≠ Heap.next st → Heap.objects st' !! l = Heap.objects st !! l) ∧
              (Heap.next st <= Heap.next st')%positive ∧
              (∀ l, is_Some (Heap.objects st' !! l) → (l < Heap.next st')%positive) ∧
              (∀ r l, o' = Ret r → Heap.r_failure_types r = Some l →
                      l = Heap.next st ∧ is_Some (Heap.objects st' !! l)) ∧
              Heap.observed st' o' = res) as Hsame.
  { intros o Ho res Hres. exists o, st. split; [done|]. split; [done|].
    split; [done|]. split; [lia|]. split; [done|]. split; [|done].
    intros r l Hr Hl. destruct (Ho r l Hr Hl). }
  destruct (predict_proba1 c1 _).1 as [proba|e]; simpl;
    [|apply Hsame; [by intros r l [=]|done]].
  destruct (getitem2 proba 0 1) as [p|e]; simpl;
    [|apply Hsame; [by intros r l [=]|done]].
  destruct (lt_threshold p _) as [[|]|e]; simpl;
    [apply Hsame; [by intros r l [= <-] [=]|done]
    | |apply Hsame; [by intros r l [=]|done]].
  rewrite (call_modes_pure _ _ c2 _ Hpure2 Hmodes).
  destruct (predict_proba2 c2 _).1 as [probs|e]; simpl;
    [|apply Hsame; [by intros r l [=]|done]].
  rewrite lookup_insert_ne.
  2:{ intros Heq. assert (Heap.next st < Heap.next st)%positive; [|lia].
      apply Hbound. rewrite Heq at 1. by rewrite Hcols. }
  rewrite Hcols.
  assert (Heap.next st ≠ Heap.ref_FAILURE_THRESHOLDS (Heap.names st)) as Hfresh.
  { intros Heq. assert (Heap.next st < Heap.next st)%positive; [|lia].
    apply Hbound. rewrite Heq at 1. by rewrite Hthr. }
  set (st1 := Heap.mkPyState (Heap.names st)
                (<[Heap.next st := Heap.DictObj []]> (Heap.objects st))
                (Pos.succ (Heap.next st))).
  lazymatch goal with
  | |- context [detect ?tm probs 0 cols ?acc] =>
      set (run := detect tm probs 0 cols acc);
      destruct (heap_mode_loop probs (Heap.next st) thr tm cols
                  (list_to_map_dict_get thr) 0%nat [] false st1)
        as (d' & Hloop & Hd')
  end.
  { subst st1. simpl. by rewrite lookup_insert_eq. }
  { subst st1. simpl. by rewrite lookup_insert_ne. }
  { done. }
  assert (Heap.mode_loop probs (Heap.next st) 0 cols false st1
          = (match run with
             | Ret res => Ret res.2
             | Raise e => Raise e
             end,
             Heap.store_object (Heap.next st) (Heap.DictObj d') st1))
    as Hloop' by exact Hloop.
  assert (∀ res, run = Ret res → d' = res.1) as Hd'' by exact Hd'.
  rewrite Hloop'. clear Hloop Hloop' Hd'. clearbody run.
  assert (∀ d,
    Heap.names (Heap.store_object (Heap.next st) (Heap.DictObj d) st1)
    = Heap.names st ∧
    (∀ l, l ≠ Heap.next st →
          Heap.objects (Heap.store_object (Heap.next st) (Heap.DictObj d) st1) !! l
          = Heap.objects st !! l) ∧
    (Heap.next st
     <= Heap.next (Heap.store_object (Heap.next st) (Heap.DictObj d) st1))%positive ∧
    (∀ l, is_Some (Heap.objects
                     (Heap.store_object (Heap.next st) (Heap.DictObj d) st1) !! l) →
          (l < Heap.next (Heap.store_object (Heap.next st) (Heap.DictObj d) st1))%positive) ∧
    Heap.objects (Heap.store_object (Heap.next st) (Heap.DictObj d) st1)
      !! Heap.next st = Some (Heap.DictObj d)) as Hframe.
  { intros d. subst st1. unfold Heap.store_object. simpl.
    split; [done|]. split; [|split; [lia|split]].
    - intros l Hl. by rewrite !lookup_insert_ne.
    - intros l Hl. destruct (decide (l = Heap.next st)) as [->|Hl']; [lia|].
      rewrite !lookup_insert_ne in Hl by done. specialize (Hbound l Hl). lia.
    - by rewrite lookup_insert_eq. }
  destruct run as [[ft detected]|e]; simpl.
  - specialize (Hd'' _ eq_refl). simpl in Hd''. subst d'. destruct detected.
    + unfold mret, Heap.H_ret.
      destruct (Hframe ft) as (Hn & Ho & Hnx & Hb & Hat).
      eexists _, _. split; [done|]. split; [done|]. split; [done|].
      split; [done|]. split; [done|].
      split; [intros r l [= <-] [= <-]; by rewrite Hat|].
      simpl. unfold Heap.dict_at. by rewrite Hat.
    + unfold Heap.dict_setitem. simpl. rewrite lookup_insert_eq.
      rewrite store_object_twice. unfold mret, Heap.H_ret.
      destruct (Hframe (dict_set "RNF" (Num.round3 p) ft))
        as (Hn & Ho & Hnx & Hb & Hat).
      eexists _, _. split; [done|]. split; [done|]. split; [done|].
      split; [done|]. split; [done|].
      split; [intros r l [= <-] [= <-]; by rewrite Hat|].
      simpl. unfold Heap.dict_at. by rewrite Hat.
  - destruct (Hframe d') as (Hn & Ho & Hnx & Hb & Hat).
    eexists _, _. split; [done|]. split; [done|]. split; [done|].
    split; [done|]. split; [done|]. split; [by intros r l [=]|]. done.
Qed.

(** The globals a state stands for depend on the namespace and on the
    objects that exist only. *)
Lemma globals_of_frame st st' :
  Heap.names st' = Heap.names st →
  (∀ l, is_Some (Heap.objects st !! l) →
        Heap.objects st' !! l = Heap.objects st !! l) →
  Heap.well_formed st →
  Heap.globals_of predict_proba1 predict_proba2 st'
  = Heap.globals_of predict_proba1 predict_proba2 st.
Proof.
  intros Hn Ho ([c1 H1] & [c2 H2] & [f Hf] & [cs Hc] & [d Hd] & _).
  unfold Heap.globals_of, Heap.dict_at. rewrite Hn.
  rewrite !Ho by (by eexists). done.
Qed.

Lemma well_formed_frame st st' :
  Heap.well_formed st →
  Heap.names st' = Heap.names st →
  (∀ l, l ≠ Heap.next st → Heap.objects st' !! l = Heap.objects st !! l) →
  (∀ l, is_Some (Heap.objects st' !! l) → (l < Heap.next st')%positive) →
  Heap.well_formed st'.
Proof.
  intros ([c1 H1] & [c2 H2] & [f Hf] & [cs Hc] & [d Hd] & Hb) Hn Ho Hb'.
  assert (∀ l, is_Some (Heap.objects st !! l) →
               Heap.objects st' !! l = Heap.objects st !! l) as Hsame.
  { intros l Hl. apply Ho. specialize (Hb l Hl). lia. }
  unfold Heap.well_formed. rewrite Hn.
  rewrite !Hsame by (by eexists).
  split; [by eexists|]. split; [by eexists|]. split; [by eexists|].
  split; [by eexists|]. split; [by eexists|]. done.
Qed.

End HeapFacts.

(** C9. On a heap where the module's names are bound to mutable objects
    and the classifiers' [predict_proba] leaves the classifier it is called
    on unchanged: what a call returns is computed from the input record and
    the loaded artifacts alone; a second call with the same input returns
    the same; it does not disturb the record the first call returned; and
    after both calls the namespace is as before and every object that
    existed, the threshold dict, the vocabularies and the classifiers among
    them, is as before. *)
Theorem inference_is_pure {state1 state2 : Type}
    (predict_proba1 : state1 → DataFrame → outcome matrix * state1)
    (predict_proba2 : state2 → list value → outcome (list matrix) * state2)
    (input_data : gmap string value) (st : @Heap.PyState state1 state2) :
  Heap.well_formed st →
  (∀ c X, (predict_proba1 c X).2 = c) →
  (∀ c X, (predict_proba2 c X).2 = c) →
  let first :=
    Heap.predict_machine_failure predict_proba1 predict_proba2 input_data st in
  let second :=
    Heap.predict_machine_failure predict_proba1 predict_proba2 input_data
      first.2 in
  Heap.observed first.2 first.1
  = (predict_machine_failure input_data
       (mkStore (Heap.globals_of predict_proba1 predict_proba2 st) [])).1 ∧
  Heap.observed second.2 second.1 = Heap.observed first.2 first.1 ∧
  Heap.observed second.2 first.1 = Heap.observed first.2 first.1 ∧
  Heap.names second.2 = Heap.names st ∧
  (∀ l o, Heap.objects st !! l = Some o →
          Heap.objects first.2 !! l = Some o ∧
          Heap.objects second.2 !! l = Some o).
Proof.
  intros Hwf Hpure1 Hpure2. simpl.
  destruct (heap_run predict_proba1 predict_proba2 input_data st [] Hwf
              Hpure1 Hpure2)
    as (o1 & st1 & Hrun1 & Hn1 & Ho1 & Hnx1 & Hb1 & Hal1 & Hobs1).
  rewrite Hrun1. simpl.
  assert (∀ l, is_Some (Heap.objects st !! l) →
               Heap.objects st1 !! l = Heap.objects st !! l) as Hkeep1.
  { intros l Hl. apply Ho1. destruct Hwf as (_ & _ & _ & _ & _ & Hb).
    specialize (Hb l Hl). lia. }
  assert (Heap.well_formed st1) as Hwf1 by (by eapply well_formed_frame).
  destruct (heap_run predict_proba1 predict_proba2 input_data st1 [] Hwf1
              Hpure1 Hpure2)
    as (o2 & st2 & Hrun2 & Hn2 & Ho2 & Hnx2 & Hb2 & Hal2 & Hobs2).
  rewrite Hrun2. simpl.
  assert (∀ l, is_Some (Heap.objects st1 !! l) →
               Heap.objects st2 !! l = Heap.objects st1 !! l) as Hkeep2.
  { intros l Hl. apply Ho2. specialize (Hb1 l Hl). lia. }
  split; [done|]. split; [|split; [|split]].
  - rewrite Hobs2, Hobs1.
    by rewrite (globals_of_frame predict_proba1 predict_proba2 st st1 Hn1 Hkeep1 Hwf).
  - destruct o1 as [r|e]; [|done]. simpl. f_equal. f_equal.
    destruct (Heap.r_failure_types r) as [l|] eqn:Hl; [|done]. simpl. f_equal.
    destruct (Hal1 r l eq_refl Hl) as [_ Hsome].
    unfold Heap.dict_at. by rewrite (Hkeep2 l Hsome).
  - by rewrite Hn2, Hn1.
  - intros l o Hl. assert (Heap.objects st1 !! l = Some o) as Hl1.
    { rewrite Hkeep1; [done|by eexists]. }
    split; [done|]. rewrite Hkeep2; [done|by eexists].
Qed.

(** The hypothesis on the classifiers is needed: with a gate that counts
    its calls, the same input gives a healthy record first and a failing
    one next. *)
Example stateful_gate_changes_the_answer :
  let first :=
    Heap.predict_machine_failure HeapFixtures.drifting_gate
      (HeapFixtures.plain_modes [(90 # 100)%Q; (60 # 100)%Q]) Demo.record
      (HeapFixtures.loaded 0%nat ()) in
  let second :=
    Heap.predict_machine_failure HeapFixtures.drifting_gate
      (HeapFixtures.plain_modes [(90 # 100)%Q; (60 # 100)%Q]) Demo.record
      first.2 in
  Heap.observed first.2 first.1 = Ret (mkResult 0 (300 # 1000) None) ∧
  Heap.observed second.2 second.1
  = Ret (mkResult 1 (800 # 1000)
           (Some [("A", (900 # 1000)%Q); ("B", (600 # 1000)%Q)])) ∧
  Heap.objects first.2 !! 1%positive = Some (Heap.GateObj 1%nat).
Proof. vm_compute. done. Qed.

Lemma loaded_well_formed {state1 state2 : Type} (c1 : state1) (c2 : state2) :
  Heap.well_formed (HeapFixtures.loaded c1 c2).
Proof.
  unfold Heap.well_formed, HeapFixtures.loaded. simpl.
  split; [by eexists|]. split; [by eexists|]. split; [by eexists|].
  split; [by eexists|]. split; [by eexists|].
  intros l [o Hl].
  repeat (apply lookup_insert_Some in Hl as [[<- _]|[_ Hl]]; [lia|]).
  by rewrite lookup_empty in Hl.
Qed.

Lemma inference_is_pure_witness :
  let first :=
    Heap.predict_machine_failure (HeapFixtures.gate (80 # 100))
      (HeapFixtures.modes [(90 # 100)%Q; (60 # 100)%Q]) Demo.record
      (HeapFixtures.loaded () ()) in
  let second :=
    Heap.predict_machine_failure (HeapFixtures.gate (80 # 100))
      (HeapFixtures.modes [(90 # 100)%Q; (60 # 100)%Q]) Demo.record
      first.2 in
  Heap.observed first.2 first.1
  = (predict_machine_failure Demo.record
       (mkStore
          (Heap.globals_of (HeapFixtures.gate (80 # 100))
             (HeapFixtures.modes [(90 # 100)%Q; (60 # 100)%Q])
             (HeapFixtures.loaded () ())) [])).1 ∧
  Heap.observed second.2 second.1 = Heap.observed first.2 first.1 ∧
  Heap.observed second.2 first.1 = Heap.observed first.2 first.1 ∧
  Heap.names second.2 = Heap.names (HeapFixtures.loaded () ()) ∧
  (∀ l o, Heap.objects (HeapFixtures.loaded () ()) !! l = Some o →
          Heap.objects first.2 !! l = Some o ∧
          Heap.objects second.2 !! l = Some o).
Proof.
  apply (inference_is_pure (HeapFixtures.gate (80 # 100))
           (HeapFixtures.modes [(90 # 100)%Q; (60 # 100)%Q]) Demo.record
           (HeapFixtures.loaded () ()));
    [apply loaded_well_formed|done|done].
Defined.

(** The heap call at the witness: the record with two modes, whose dict is
    the one new object. *)
Example heap_call_allocates_its_dict :
  let first :=
    Heap.predict_machine_failure (HeapFixtures.gate (80 # 100))
      (HeapFixtures.modes [(90 # 100)%Q; (60 # 100)%Q]) Demo.record
      (HeapFixtures.loaded () ()) in
  first.1 = Ret (Heap.mkReturned 1 (800 # 1000) (Some 6%positive)) ∧
  Heap.objects first.2 !! 6%positive
  = Some (Heap.DictObj [("A", (900 # 1000)%Q); ("B", (600 # 1000)%Q)]) ∧
  Heap.next first.2 = 7%positive.
Proof. vm_compute. done. Qed.
